(** * FireProtector: alert evaluation and notification de-duplication

    A shallow embedding of
    - [supabase/functions/alert-manager/index.ts] (the [evaluate] and
      [update] actions of the edge function), and
    - the [handleAlert] subscribers of [GlobalAlertListener]
      ([src/components/GlobalAlertListener.tsx] and the toast-handle
      revision of the same component),
    together with the properties the specification states about them. *)

From Stdlib Require Import ZArith QArith String Ascii List Bool Lia.
From stdpp Require Import base gmap strings list fin_maps.

Local Open Scope string_scope.
Local Open Scope Z_scope.

(** ** JavaScript values carried by a sensor reading *)

Module JS.

(** An IEEE double is NaN, an infinity or a rational; the ordering of
    doubles is the ordering of the rationals they denote. *)
Inductive number :=
  | NaN
  | PosInf
  | NegInf
  | Fin (q : Q).

(** A JSON scalar, plus [undefined] for a field that is absent (the
    telemetry fields are scalars; objects and arrays are left out). *)
Inductive value :=
  | Undefined
  | Null
  | Boolean (b : bool)
  | Number (n : number)
  | Str (s : string).

(** [a < b] on numbers; any comparison with NaN is false. *)
Definition lt (a b : number) : bool :=
  match a, b with
  | NaN, _ | _, NaN => false
  | PosInf, _ => false
  | _, NegInf => false
  | NegInf, _ => true
  | Fin _, PosInf => true
  | Fin x, Fin y => negb (Qle_bool y x)
  end.

(** [a > b] is [b < a]. *)
Definition gt (a b : number) : bool := lt b a.

(** [a === b] for a string literal [b]: same type and same contents. *)
Definition strict_eq_str (a : value) (b : string) : bool :=
  match a with
  | Str s => String.eqb s b
  | _ => false
  end.

Definition of_Z (z : Z) : number := Fin (inject_Z z).

Section Coercion.

(** The engine's StringToNumber (decimal and hexadecimal literals,
    surrounding white space, [Infinity], NaN for anything else). *)
Variable StringToNumber : string -> number.

Definition ToNumber (v : value) : number :=
  match v with
  | Undefined => NaN
  | Null => of_Z 0
  | Boolean true => of_Z 1
  | Boolean false => of_Z 0
  | Number n => n
  | Str s => StringToNumber s
  end.

(** [v > k] where [k] is a numeric literal: the operands are never both
    strings, so the comparison is numeric. *)
Definition gt_literal (v : value) (k : Z) : bool :=
  gt (ToNumber v) (of_Z k).

End Coercion.

End JS.

(** ** Sensor readings and the threshold checks *)

(** The [data] object returned by the telemetry service. *)
Record Sensors := {
  temperature : JS.value;
  humidity : JS.value;
  flame : JS.value;
  gas : JS.value;
  pir : JS.value;
  captured_at : JS.value
}.

(** The [thresholds] object of lines 62-67. *)
Module Thresholds.
Definition temperature_critical : Z := 35.
Definition gas_critical : Z := 400.
Definition flame_detected : string := "FLAME".
Definition pir_detected : string := "0".
End Thresholds.

(** The two mutable locals of the [evaluate] branch. *)
Module Vars.
Record t := {
  alertType : option string;   (* [None] is [null] *)
  severity : string
}.
End Vars.

(** A string is truthy unless it is empty; [null] is falsy. *)
Definition truthy (o : option string) : bool :=
  match o with
  | Some s => negb (String.eqb s "")
  | None => false
  end.

(** ** The alert store *)

Record Location := {
  name : string;
  thingspeak_channel_id : string;
  thingspeak_read_key : string
}.

(** The columns of [alerts] other than the primary key. Timestamps are
    milliseconds since the epoch, the precision of [toISOString]. *)
Record AlertRow := {
  location_id : string;
  alert_type : string;
  severity : string;
  status : string;
  sensor_values : Sensors;
  timestamp : Z;
  resolved_at : option Z;
  resolved_by : option string
}.

(** A row of [alerts] as [select] returns it. *)
Record Alert := {
  id : string;
  row : AlertRow
}.

(** Both tables are keyed by their primary key [id]. *)
Record Store := {
  locations : gmap string Location;
  alerts : gmap string AlertRow
}.

(** What a query resolves to: [{ data, error: null }] or
    [{ data: null, error }]. *)
Inductive Reply (A : Type) :=
| Data (a : A)
| Error (message : string).
Arguments Data {A} a.
Arguments Error {A} message.

Definition reply_data {A} (r : Reply A) : option A :=
  match r with
  | Data a => Some a
  | Error _ => None
  end.

Module Postgrest.
(** [single()] on a result that is not exactly one row. *)
Definition not_single : string :=
  "JSON object requested, multiple (or no) rows returned".
(** An insert whose key is already taken. *)
Definition duplicate_key : string :=
  "duplicate key value violates unique constraint".
End Postgrest.

(** [from('locations').select('*').eq('id', locationId).single()] *)
Definition select_location (st : Store) (locationId : string) : Reply Location :=
  match locations st !! locationId with
  | Some l => Data l
  | None => Error Postgrest.not_single
  end.

(** The filter [eq('location_id', locationId).gte('timestamp', oneHourAgo)]. *)
Definition recent_for (locationId : string) (oneHourAgo : Z) (a : Alert) : bool :=
  String.eqb (location_id (row a)) locationId && (oneHourAgo <=? timestamp (row a)).

(** [order('timestamp', { ascending: false }).limit(1)]: a row with the
    greatest timestamp (among equal timestamps the store is free to pick;
    the model takes the last one in its enumeration). *)
Fixpoint most_recent (l : list Alert) : option Alert :=
  match l with
  | [] => None
  | a :: l' =>
      match most_recent l' with
      | Some b => if timestamp (row b) <? timestamp (row a) then Some a else Some b
      | None => Some a
      end
  end.

Definition alert_rows (st : Store) : list Alert :=
  map (fun kv => {| id := fst kv; row := snd kv |}) (map_to_list (alerts st)).

(** Lines 92-99: the one-hour lookup, ending in [single()]. *)
Definition select_recent_alert (st : Store) (locationId : string) (oneHourAgo : Z)
  : Reply Alert :=
  match most_recent (List.filter (recent_for locationId oneHourAgo) (alert_rows st)) with
  | Some a => Data a
  | None => Error Postgrest.not_single
  end.

Definition set_alerts (st : Store) (m : gmap string AlertRow) : Store :=
  {| locations := locations st; alerts := m |}.

(** The object passed to [update] on lines 105-110. *)
Definition redetected (alertType severity' : string) (sensors : Sensors) (now : Z)
    (r : AlertRow) : AlertRow :=
  {| location_id := location_id r;
     alert_type := alertType;
     severity := severity';
     status := status r;
     sensor_values := sensors;
     timestamp := now;
     resolved_at := resolved_at r;
     resolved_by := resolved_by r |}.

(** [from('alerts').update(patch).eq('id', key).select().single()] *)
Definition update_alert (st : Store) (key : string) (patch : AlertRow -> AlertRow)
  : Reply Alert * Store :=
  match alerts st !! key with
  | Some r =>
      (Data {| id := key; row := patch r |},
       set_alerts st (<[key := patch r]> (alerts st)))
  | None => (Error Postgrest.not_single, st)
  end.

(** [from('alerts').insert(r).select().single()]; the table default
    supplies the key [fresh]. *)
Definition insert_alert (st : Store) (fresh : string) (r : AlertRow)
  : Reply Alert * Store :=
  match alerts st !! fresh with
  | Some _ => (Error Postgrest.duplicate_key, st)
  | None =>
      (Data {| id := fresh; row := r |},
       set_alerts st (<[fresh := r]> (alerts st)))
  end.

(** [from('alerts').update(patch).eq('id', key)] without [select]:
    matching no row is not an error. *)
Definition update_alert_quiet (st : Store) (key : string) (patch : AlertRow -> AlertRow)
  : option string * Store :=
  (None, set_alerts st (alter patch key (alerts st))).

(** ** The edge function *)

(** The body [{ success, data? }] of the telemetry service's reply. *)
Record SensorResponse := {
  success : bool;
  data : option Sensors
}.

(** What [functions.invoke] resolves to. *)
Record Invoked := {
  sensorData : option SensorResponse;
  sensorError : option string
}.

(** Everything the function reads from outside the store. *)
Record Env := {
  date_now : Z;                              (* [Date.now()] on line 91 *)
  new_Date : Z;                              (* [new Date()] when a row is written *)
  invoke_thingspeak : Location -> Invoked;   (* the ['thingspeak-service'] call *)
  default_id : string;                       (* the key the table gives a new row *)
  getUser : string -> option string          (* [auth.getUser(token)], as [user.id] *)
}.

Record Request := {
  method : string;
  authorization : option string;   (* [req.headers.get('Authorization')] *)
  action : string;
  locationId : string;
  alertId : string;
  new_status : string              (* the [status] field of the body *)
}.

Inductive Body :=
| NoBody                                                 (* [null] *)
| Message (message : string) (sensors : option Sensors)  (* [{ success: true, message, sensors? }] *)
| AlertUpdated (alert : Alert)                           (* [{ success: true, alert, updated: true }] *)
| AlertCreated (alert : Alert)                           (* [{ success: true, alert, created: true }] *)
| Failed (error : string).                               (* [{ success: false, error }] *)

Record Response := {
  http_status : Z;
  body : Body
}.

Definition ok (b : Body) : Response := {| http_status := 200; body := b |}.

(** How the [try] block ends. *)
Inductive Outcome :=
| Return (r : Response)
| Throw (message : string).

(** [s.replace(pat, rep)] for a string pattern: the first occurrence only. *)
Definition replace_first (pat rep s : string) : string :=
  match index 0 pat s with
  | Some i =>
      substring 0 i s ++ rep ++
      substring (i + String.length pat) (String.length s - (i + String.length pat)) s
  | None => s
  end.

(** Line 51: [sensorError || !sensorData?.success || !sensorData?.data]. *)
Definition no_sensor_data (inv : Invoked) : bool :=
  match sensorError inv with
  | Some _ => true
  | None =>
      match sensorData inv with
      | None => true
      | Some sd =>
          negb (success sd) ||
          match data sd with Some _ => false | None => true end
      end
  end.

(** The object passed to [insert] on lines 129-136. *)
Definition detected (locationId alertType severity' : string) (sensors : Sensors)
    (now : Z) : AlertRow :=
  {| location_id := locationId;
     alert_type := alertType;
     severity := severity';
     status := "active";
     sensor_values := sensors;
     timestamp := now;
     resolved_at := None;
     resolved_by := None |}.

(** The object passed to [update] on lines 170-174. *)
Definition with_status (status' : string) (now : Z) (user : string) (r : AlertRow)
  : AlertRow :=
  {| location_id := location_id r;
     alert_type := alert_type r;
     severity := severity r;
     status := status';
     sensor_values := sensor_values r;
     timestamp := timestamp r;
     resolved_at := if negb (String.eqb status' "active") then Some now else None;
     resolved_by := if negb (String.eqb status' "active") then Some user else None |}.

(** Lines 188-202: the [catch] turns a thrown error into a 400 reply
    carrying its message; a returned response goes out as it is. *)
Definition reply_of (o : Outcome * Store) : Response * Store :=
  match o with
  | (Return r, st') => (r, st')
  | (Throw message, st') => ({| http_status := 400; body := Failed message |}, st')
  end.

Module AlertManager.

Section Evaluator.

Variable StringToNumber : string -> JS.number.

(** Lines 69-86: the two locals and the if / else-if chain. *)
Definition threshold_checks (sensors : Sensors) : Vars.t :=
  let alertType := None in
  let severity := "critical" in
  if JS.strict_eq_str (flame sensors) "FLAME" then
    {| Vars.alertType := Some "fire"; Vars.severity := "critical" |}
  else if JS.gt_literal StringToNumber (gas sensors) Thresholds.gas_critical then
    {| Vars.alertType := Some "gas_leak"; Vars.severity := "critical" |}
  else if JS.gt_literal StringToNumber (temperature sensors)
            Thresholds.temperature_critical then
    {| Vars.alertType := Some "temperature"; Vars.severity := "critical" |}
  else
    {| Vars.alertType := alertType; Vars.severity := severity |}.

(** The classification the create-or-update step works on: the pair
    [(alertType, severity)] when the test [if (alertType)] on line 89
    succeeds, nothing otherwise. *)
Definition classify (sensors : Sensors) : option (string * string) :=
  let v := threshold_checks sensors in
  if truthy (Vars.alertType v)
  then Some (default "" (Vars.alertType v), Vars.severity v)
  else None.

(** Lines 89-157: create or update once the readings are in. *)
Definition create_or_update (env : Env) (locationId : string) (sensors : Sensors)
    (st : Store) : Outcome * Store :=
  match classify sensors with
  | Some (alertType, severity) =>
      let oneHourAgo := date_now env - 60 * 60 * 1000 in
      match reply_data (select_recent_alert st locationId oneHourAgo) with
      | Some existingAlert =>
          match update_alert st (id existingAlert)
                  (redetected alertType severity sensors (new_Date env)) with
          | (Error updateError, st') => (Throw updateError, st')
          | (Data updatedAlert, st') => (Return (ok (AlertUpdated updatedAlert)), st')
          end
      | None =>
          match insert_alert st (default_id env)
                  (detected locationId alertType severity sensors (new_Date env)) with
          | (Error alertError, st') => (Throw alertError, st')
          | (Data newAlert, st') => (Return (ok (AlertCreated newAlert)), st')
          end
      end
  | None =>
      (Return (ok (Message "All sensors within normal range" (Some sensors))), st)
  end.

(** Lines 31-158: the [evaluate] action. *)
Definition evaluate (env : Env) (locationId : string) (st : Store) : Outcome * Store :=
  match select_location st locationId with
  | Error locationError => (Throw locationError, st)
  | Data location =>
      let inv := invoke_thingspeak env location in
      if no_sensor_data inv then
        (Return (ok (Message "No sensor data available" None)), st)
      else
        match sensorData inv ≫= data with
        | Some sensors => create_or_update env locationId sensors st
        | None => (Throw "Cannot read properties of null", st)
        end
  end.

(** Lines 160-185: the [update] action. *)
Definition update (env : Env) (req : Request) (st : Store) : Outcome * Store :=
  match authorization req with
  | Some authHeader =>
      if String.eqb authHeader "" then (Throw "No authorization header", st)
      else
        match getUser env (replace_first "Bearer " "" authHeader) with
        | Some user =>
            match update_alert_quiet st (alertId req)
                    (with_status (new_status req) (new_Date env) user) with
            | (Some updateError, st') => (Throw updateError, st')
            | (None, st') =>
                (Return (ok (Message "Alert updated successfully" None)), st')
            end
        | None => (Throw "Unauthorized", st)
        end
  | None => (Throw "No authorization header", st)
  end.

(** The handler passed to [serve]: dispatch on [action] inside [try]. *)
Definition serve (env : Env) (req : Request) (st : Store) : Response * Store :=
  if String.eqb (method req) "OPTIONS" then (ok NoBody, st)
  else
    reply_of
      (if String.eqb (action req) "evaluate" then evaluate env (locationId req) st
       else if String.eqb (action req) "update" then update env req st
       else (Throw "Invalid action", st)).

End Evaluator.

End AlertManager.

(** ** The notification listeners *)

(** [payload.new] of a change event on [alerts]. *)
Module Payload.
Record t := {
  id : string;
  status : option string;   (* [None] is [null] *)
  alert_type : string;
  severity : string;
  location_id : string
}.
End Payload.

(** What the presentation layer is asked to do. A toast carries the alert
    its "View Details" button leads to. *)
Inductive Effect :=
| Toast (handle : nat) (alert : string) (title description : string)
| Dismiss (handle : nat)
| Audio.

(** The toast hook: the calls made so far and its id counter. *)
Record Screen := {
  effects : list Effect;
  count : nat
}.

Definition toast (alert title description : string) (sc : Screen) : nat * Screen :=
  (count sc,
   {| effects := effects sc ++ [Toast (count sc) alert title description];
      count := S (count sc) |}).

Definition dismiss (handle : nat) (sc : Screen) : Screen :=
  {| effects := effects sc ++ [Dismiss handle]; count := count sc |}.

Definition play_audio (sc : Screen) : Screen :=
  {| effects := effects sc ++ [Audio]; count := count sc |}.

(** [toUpperCase] on the ASCII letters of a severity. *)
Definition upper_ascii (c : ascii) : ascii :=
  let n := nat_of_ascii c in
  if ((97 <=? n) && (n <=? 122))%nat then ascii_of_nat (n - 32) else c.

Fixpoint toUpperCase (s : string) : string :=
  match s with
  | EmptyString => EmptyString
  | String c s' => String (upper_ascii c) (toUpperCase s')
  end.

(** The [switch (alert.alert_type)] that picks the title. *)
Definition title_of (alert_type : string) : string :=
  if String.eqb alert_type "fire" then "🔥 FIRE DETECTED"
  else if String.eqb alert_type "gas_leak" then "💨 GAS LEAK DETECTED"
  else if String.eqb alert_type "temperature" then "🌡️ HIGH TEMPERATURE"
  else "⚠️ ALERT".

Definition newline : string := String (ascii_of_nat 10) EmptyString.

(** [location?.name || 'Unknown Location'] *)
Definition locationName (location : option Location) : string :=
  match location with
  | Some l => if String.eqb (name l) "" then "Unknown Location" else name l
  | None => "Unknown Location"
  end.

Definition description_of (location : option Location) (severity' : string) : string :=
  "Location: " ++ locationName location ++ newline ++
  "Severity: " ++ toUpperCase severity'.

(** [from('locations').select('name').eq('id', ...).single()], keeping [data]. *)
Definition fetch_location (db : Store) (alert : Payload.t) : option Location :=
  reply_data (select_location db (Payload.location_id alert)).

(** *** [src/components/GlobalAlertListener.tsx]

    [handleAlert] is asynchronous: [receive] is what runs before the first
    [await] (the location fetch) and [notify] what runs after it. *)
Module Listener.

Record State := {
  shownAlerts : gset string;
  screen : Screen
}.

Definition closed (status : option string) : bool :=
  bool_decide (status = Some "solved") || bool_decide (status = Some "unsolved").

(** Lines 13-41. A [null] record makes [alert.id] throw: nothing changes. *)
Definition receive (new : option Payload.t) (isUpdate : bool) (st : State)
  : State * option Payload.t :=
  match new with
  | None => (st, None)
  | Some alert =>
      let alertId := Payload.id alert in
      if isUpdate then
        if closed (Payload.status alert)
        then ({| shownAlerts := shownAlerts st ∖ {[alertId]}; screen := screen st |}, None)
        else (st, None)
      else if bool_decide (alertId ∈ shownAlerts st) then (st, None)
      else if closed (Payload.status alert) then (st, None)
      else ({| shownAlerts := {[alertId]} ∪ shownAlerts st; screen := screen st |},
            Some alert)
  end.

(** Lines 43-92: the toast and the sound. *)
Definition notify (alert : Payload.t) (location : option Location) (st : State) : State :=
  let '(_, sc) :=
    toast (Payload.id alert) (title_of (Payload.alert_type alert))
      (description_of location (Payload.severity alert)) (screen st) in
  {| shownAlerts := shownAlerts st; screen := play_audio sc |}.

(** One call of [handleAlert] run to its end with nothing in between. *)
Definition handleAlert (db : Store) (new : option Payload.t) (isUpdate : bool)
    (st : State) : State :=
  match receive new isUpdate st with
  | (st', Some alert) => notify alert (fetch_location db alert) st'
  | (st', None) => st'
  end.

End Listener.

(** *** The revision that keeps a toast handle per alert *)
Module ToastListener.

Record State := {
  shownAlerts : gset string;
  alertToasts : gmap string nat;   (* the handle whose [dismiss] is stored *)
  screen : Screen
}.

Definition closed (status : string) : bool :=
  String.eqb status "resolved" || String.eqb status "unsolved" ||
  String.eqb status "false_alarm".

Definition live (status : string) : bool :=
  String.eqb status "active" || String.eqb status "in_queue".

(** Lines 14-47: everything before the first [await]. *)
Definition receive (new : option Payload.t) (st : State) : State * option Payload.t :=
  match new with
  | None => (st, None)
  | Some alert =>
      let alertId := Payload.id alert in
      let status := default "active" (Payload.status alert) in
      if closed status then
        let st1 :=
          match alertToasts st !! alertId with
          | Some existing =>
              {| shownAlerts := shownAlerts st;
                 alertToasts := delete alertId (alertToasts st);
                 screen := dismiss existing (screen st) |}
          | None => st
          end in
        ({| shownAlerts := shownAlerts st1 ∖ {[alertId]};
            alertToasts := alertToasts st1;
            screen := screen st1 |}, None)
      else if negb (live status) then (st, None)
      else if bool_decide (alertId ∈ shownAlerts st) then (st, None)
      else ({| shownAlerts := {[alertId]} ∪ shownAlerts st;
               alertToasts := alertToasts st;
               screen := screen st |}, Some alert)
  end.

(** Lines 49-100: the toast, its handle and the sound. *)
Definition notify (alert : Payload.t) (location : option Location) (st : State) : State :=
  let '(handle, sc) :=
    toast (Payload.id alert) (title_of (Payload.alert_type alert))
      (description_of location (Payload.severity alert)) (screen st) in
  {| shownAlerts := shownAlerts st;
     alertToasts := <[Payload.id alert := handle]> (alertToasts st);
     screen := play_audio sc |}.

Definition handleAlert (db : Store) (new : option Payload.t) (st : State) : State :=
  match receive new st with
  | (st', Some alert) => notify alert (fetch_location db alert) st'
  | (st', None) => st'
  end.

End ToastListener.

(** ** Vocabulary of the specification *)

Module Reading.

Section Readings.

Variable StringToNumber : string -> JS.number.

(** "[v] is above [k]": the number [v] stands for is greater than [k]. *)
Definition above (v : JS.value) (k : Z) : Prop :=
  match JS.ToNumber StringToNumber v with
  | JS.Fin q => (inject_Z k < q)%Q
  | JS.PosInf => True
  | JS.NaN | JS.NegInf => False
  end.

(** "[v] is exactly [k]". *)
Definition exactly (v : JS.value) (k : Z) : Prop :=
  match JS.ToNumber StringToNumber v with
  | JS.Fin q => (q == inject_Z k)%Q
  | _ => False
  end.

End Readings.

End Reading.

(** "Flame detected": the sensor reports the string ["FLAME"] (and
    ["NO FLAME"] otherwise). *)
Definition flame_detected (sensors : Sensors) : Prop :=
  flame sensors = JS.Str "FLAME".

(** The window of the lookup: stamped no earlier than 60 minutes before
    [now] (the query has no upper bound). *)
Definition within_last_hour (now : Z) (r : AlertRow) : Prop :=
  now - 60 * 60 * 1000 <= timestamp r.

(** The number of alert records of a location. *)
Definition records_of (locationId : string) (st : Store) : nat :=
  size (filter (fun kv : string * AlertRow => location_id (snd kv) = locationId)
          (alerts st)).

(** A request that reaches the [evaluate] branch. *)
Definition evaluate_request (req : Request) : Prop :=
  method req <> "OPTIONS" /\ action req = "evaluate".

(** A request that reaches the [update] branch as an authenticated [user]. *)
Definition update_request (env : Env) (req : Request) (user : string) : Prop :=
  method req <> "OPTIONS" /\ action req = "update" /\
  exists authHeader,
    authorization req = Some authHeader /\ authHeader <> "" /\
    getUser env (replace_first "Bearer " "" authHeader) = Some user.

(** The telemetry service answered with the readings [sensors]. *)
Definition telemetry (env : Env) (location : Location) (sensors : Sensors) : Prop :=
  sensorError (invoke_thingspeak env location) = None /\
  exists sd, sensorData (invoke_thingspeak env location) = Some sd /\
             success sd = true /\ data sd = Some sensors.

(** The telemetry fetch failed, or came back without data. *)
Definition telemetry_unavailable (env : Env) (location : Location) : Prop :=
  let inv := invoke_thingspeak env location in
  sensorError inv <> None \/ sensorData inv = None \/
  exists sd, sensorData inv = Some sd /\ (success sd = false \/ data sd = None).

(** How often the screen was asked to show a toast for [alert], and to
    play the sound. *)
Definition shows (alert : string) (l : list Effect) : nat :=
  length (List.filter
            (fun e => match e with
                      | Toast _ a _ _ => String.eqb a alert
                      | _ => false
                      end) l).

Definition sounds (l : list Effect) : nat :=
  length (List.filter (fun e => match e with Audio => true | _ => false end) l).

Definition dismissals (l : list Effect) : nat :=
  length (List.filter (fun e => match e with Dismiss _ => true | _ => false end) l).

(** ** Sample data *)

Module Sample.

(** A converter that reads strings of decimal digits (and the empty
    string as 0), as StringToNumber does, and gives NaN on the rest. *)
Fixpoint digits (acc : Z) (s : string) : JS.number :=
  match s with
  | EmptyString => JS.of_Z acc
  | String c s' =>
      let n := Z.of_nat (nat_of_ascii c) in
      if (48 <=? n) && (n <=? 57) then digits (10 * acc + (n - 48)) s' else JS.NaN
  end.

Definition StringToNumber : string -> JS.number := digits 0.

Definition num (z : Z) : JS.value := JS.Number (JS.of_Z z).

(** A reading with the given flame, gas and temperature fields. *)
Definition reading (flame' gas' temperature' : JS.value) : Sensors :=
  {| temperature := temperature';
     humidity := num 40;
     flame := flame';
     gas := gas';
     pir := JS.Str "1";
     captured_at := JS.Str "2024-01-01T00:00:00Z" |}.

Definition burning : Sensors := reading (JS.Str "FLAME") (num 50) (num 20).
Definition leaking : Sensors := reading (JS.Str "NO FLAME") (num 450) (num 20).
Definition hot : Sensors := reading (JS.Str "NO FLAME") (num 50) (num 36).
Definition nominal : Sensors := reading (JS.Str "NO FLAME") (num 400) (num 35).

Definition lab : Location :=
  {| name := "Lab"; thingspeak_channel_id := "1001"; thingspeak_read_key := "KEY" |}.

Definition minute : Z := 60 * 1000.

(** The clock reads 100 minutes past the epoch. *)
Definition env (inv : Invoked) : Env :=
  {| date_now := 100 * minute;
     new_Date := 100 * minute + 5;
     invoke_thingspeak := fun _ => inv;
     default_id := "a2";
     getUser := fun token => if String.eqb token "token" then Some "u1" else None |}.

Definition answers (sensors : Sensors) : Invoked :=
  {| sensorData := Some {| success := true; data := Some sensors |};
     sensorError := None |}.

Definition unreachable : Invoked :=
  {| sensorData := None; sensorError := Some "Failed to send a request" |}.

Definition evaluate_L : Request :=
  {| method := "POST"; authorization := None; action := "evaluate";
     locationId := "L"; alertId := ""; new_status := "" |}.

Definition set_status (alertId' status' : string) : Request :=
  {| method := "POST"; authorization := Some "Bearer token"; action := "update";
     locationId := ""; alertId := alertId'; new_status := status' |}.

(** An alert of location L raised [age] minutes before the clock reading. *)
Definition raised (age : Z) (status' : string) : AlertRow :=
  {| location_id := "L";
     alert_type := "gas_leak";
     severity := "critical";
     status := status';
     sensor_values := leaking;
     timestamp := (100 - age) * minute;
     resolved_at := None;
     resolved_by := None |}.

Definition store (rows : gmap string AlertRow) : Store :=
  {| locations := {[ "L" := lab ]}; alerts := rows |}.

(** The change event of alert a1 at location L with the given status. *)
Definition event (status' : string) : Payload.t :=
  {| Payload.id := "a1";
     Payload.status := Some status';
     Payload.alert_type := "fire";
     Payload.severity := "critical";
     Payload.location_id := "L" |}.

Definition blank : Screen := {| effects := []; count := 0 |}.

(** Both listeners right after mounting. *)
Definition quiet : Listener.State :=
  {| Listener.shownAlerts := ∅; Listener.screen := blank |}.

Definition idle : ToastListener.State :=
  {| ToastListener.shownAlerts := ∅;
     ToastListener.alertToasts := ∅;
     ToastListener.screen := blank |}.

End Sample.

(** ** Runs of the listeners *)

(** One delivery of the change feed to the listener of
    GlobalAlertListener.tsx: the record, and whether it came through the
    UPDATE subscription. *)
Record Delivery := {
  delivered : option Payload.t;
  as_update : bool
}.

(** Deliveries handled one after the other, each call run to its end. *)
Definition listener_run (db : Store) (events : list Delivery) (st : Listener.State)
  : Listener.State :=
  fold_left (fun st e => Listener.handleAlert db (delivered e) (as_update e) st)
    events st.

Definition toast_listener_run (db : Store) (events : list (option Payload.t))
    (st : ToastListener.State) : ToastListener.State :=
  fold_left (fun st new => ToastListener.handleAlert db new st) events st.

(** The toasts a trace leaves on the screen, by handle, with the alert
    each one is about. *)
Definition screen_step (m : gmap nat string) (e : Effect) : gmap nat string :=
  match e with
  | Toast handle alert _ _ => <[handle := alert]> m
  | Dismiss handle => delete handle m
  | Audio => m
  end.

Definition on_screen (l : list Effect) : gmap nat string :=
  fold_left screen_step l ∅.

(** A trace is orderly from the screen [m] on when every toast gets a
    handle that is not in use and every dismissal names a toast that is
    up. *)
Fixpoint orderly (m : gmap nat string) (l : list Effect) : Prop :=
  match l with
  | [] => True
  | Toast handle alert _ _ :: l' =>
      m !! handle = None /\ orderly (<[handle := alert]> m) l'
  | Dismiss handle :: l' =>
      is_Some (m !! handle) /\ orderly (delete handle m) l'
  | Audio :: l' => orderly m l'
  end.

(** How many toasts were asked for, whatever the alert. *)
Definition toasts (l : list Effect) : nat :=
  length (List.filter (fun e => match e with Toast _ _ _ _ => true | _ => false end) l).

(** What ties the bookkeeping of the toast-handle listener to the screen:
    the handles it keeps are the toasts that are up, every handle is one
    the hook has given out, and a key with a handle is marked as shown. *)
Definition toast_listener_inv (st : ToastListener.State) : Prop :=
  (forall h k, on_screen (effects (ToastListener.screen st)) !! h = Some k <->
               ToastListener.alertToasts st !! k = Some h) /\
  (forall k h, ToastListener.alertToasts st !! k = Some h ->
               (h < count (ToastListener.screen st))%nat) /\
  (forall k, is_Some (ToastListener.alertToasts st !! k) ->
             k ∈ ToastListener.shownAlerts st).

(** The clock reads 130 minutes past the epoch and the sensors report a
    gas leak. *)
Definition later_env : Env :=
  {| date_now := 130 * Sample.minute;
     new_Date := 130 * Sample.minute + 5;
     invoke_thingspeak := fun _ => Sample.answers Sample.leaking;
     default_id := "a3";
     getUser := fun _ => None |}.

(** ** The listener keyed by location

    The revision of [GlobalAlertListener] that shows its toasts through
    sonner, one per location, and looks for open alerts when it mounts. *)

Module Sonner.
(** The calls made on sonner's [toast]. *)
Inductive Effect :=
| Custom (id alert locationName typeDisplay : string)   (* [toast.custom(jsx, { id, duration: Infinity })] *)
| DismissId (id : string)                               (* [toast.dismiss(id)] *)
| Sound.
End Sonner.

Module LocationListener.

Record State := {
  shownLocations : gset string;
  screen : list Sonner.Effect
}.

Definition closed (status : string) : bool :=
  String.eqb status "resolved" || String.eqb status "unsolved" ||
  String.eqb status "false_alarm".

Definition live (status : string) : bool :=
  String.eqb status "active" || String.eqb status "in_queue".

(** The [switch] that picks the type line of the toast. *)
Definition typeDisplay (alert_type : string) : string :=
  if String.eqb alert_type "fire" then "FIRE"
  else if String.eqb alert_type "gas_leak" then "GAS LEAK"
  else if String.eqb alert_type "temperature" then "HIGH TEMPERATURE"
  else if String.eqb (toUpperCase alert_type) "" then "ALERT"
  else toUpperCase alert_type.

(** [showAlertToast] up to its [await]. *)
Definition receive (alert : option Payload.t) (st : State) : State * option Payload.t :=
  match alert with
  | None => (st, None)
  | Some alert =>
      let locationId := Payload.location_id alert in
      let status := default "active" (Payload.status alert) in
      if closed status then
        ({| shownLocations := shownLocations st ∖ {[locationId]};
            screen := screen st ++ [Sonner.DismissId locationId] |}, None)
      else if negb (live status) then (st, None)
      else if bool_decide (locationId ∈ shownLocations st) then (st, None)
      else ({| shownLocations := {[locationId]} ∪ shownLocations st;
               screen := screen st |}, Some alert)
  end.

(** [showAlertToast] after the location name has arrived. *)
Definition notify (alert : Payload.t) (location : option Location) (st : State) : State :=
  {| shownLocations := shownLocations st;
     screen := screen st ++
               [Sonner.Custom (Payload.location_id alert) (Payload.id alert)
                  (locationName location) (typeDisplay (Payload.alert_type alert));
                Sonner.Sound] |}.

Definition showAlertToast (db : Store) (alert : option Payload.t) (st : State) : State :=
  match receive alert st with
  | (st', Some alert) => notify alert (fetch_location db alert) st'
  | (st', None) => st'
  end.

(** The feed handler passes [payload.new] on. *)
Definition handleAlert (db : Store) (new : option Payload.t) (st : State) : State :=
  showAlertToast db new st.

(** The close button of a toast: [toast.dismiss(t)] and the key is
    forgotten. *)
Definition close_click (locationId : string) (st : State) : State :=
  {| shownLocations := shownLocations st ∖ {[locationId]};
     screen := screen st ++ [Sonner.DismissId locationId] |}.

(** The body of the [for] loop of [fetchExistingAlerts], on the local
    [seenLocations] and the listener's state. *)
Definition visit (db : Store) (acc : gset string * State) (alert : Payload.t)
  : gset string * State :=
  let '(seenLocations, st) := acc in
  if bool_decide (Payload.location_id alert ∈ seenLocations) then acc
  else ({[Payload.location_id alert]} ∪ seenLocations,
        showAlertToast db (Some alert) st).

(** [fetchExistingAlerts], given what the query for the open alerts
    (newest first) came back with. *)
Definition fetchExistingAlerts (db : Store) (alerts : option (list Payload.t))
    (st : State) : State :=
  match alerts with
  | Some (alert :: rest) => snd (fold_left (visit db) (alert :: rest) (∅, st))
  | Some [] | None => st
  end.

End LocationListener.

(** How often sonner was asked to show a toast under the key [id]. *)
Definition customs (id : string) (l : list Sonner.Effect) : nat :=
  length (List.filter
            (fun e => match e with
                      | Sonner.Custom i _ _ _ => String.eqb i id
                      | _ => false
                      end) l).

(** ** The first listener

    The earliest revision of [GlobalAlertListener]: keyed by location,
    with a toast for every update. *)
Module FirstListener.

Record State := {
  shownAlerts : gset string;
  screen : Screen
}.

Definition title_of (alert_type : string) (isUpdate : bool) : string :=
  if String.eqb alert_type "fire" then
    if isUpdate then "🔥 FIRE ALERT UPDATED" else "🔥 FIRE DETECTED"
  else if String.eqb alert_type "gas_leak" then
    if isUpdate then "💨 GAS LEAK UPDATED" else "💨 GAS LEAK DETECTED"
  else if String.eqb alert_type "temperature" then
    if isUpdate then "🌡️ TEMPERATURE UPDATED" else "🌡️ HIGH TEMPERATURE"
  else
    if isUpdate then "⚠️ ALERT UPDATED" else "⚠️ ALERT".

(** Up to the [await]. A [null] record makes [alert.location_id] throw. *)
Definition receive (new : option Payload.t) (isUpdate : bool) (st : State)
  : State * option Payload.t :=
  match new with
  | None => (st, None)
  | Some alert =>
      let locationKey := Payload.location_id alert in
      if negb isUpdate && bool_decide (locationKey ∈ shownAlerts st) then (st, None)
      else ({| shownAlerts := {[locationKey]} ∪ shownAlerts st; screen := screen st |},
            Some alert)
  end.

Definition notify (alert : Payload.t) (isUpdate : bool) (location : option Location)
    (st : State) : State :=
  let '(_, sc) :=
    toast (Payload.id alert) (title_of (Payload.alert_type alert) isUpdate)
      (locationName location ++ " - " ++ toUpperCase (Payload.severity alert) ++
       " severity") (screen st) in
  {| shownAlerts := shownAlerts st;
     screen := if isUpdate then sc else play_audio sc |}.

Definition handleAlert (db : Store) (new : option Payload.t) (isUpdate : bool)
    (st : State) : State :=
  match receive new isUpdate st with
  | (st', Some alert) => notify alert isUpdate (fetch_location db alert) st'
  | (st', None) => st'
  end.

End FirstListener.

Definition first_listener_run (db : Store) (events : list Delivery)
    (st : FirstListener.State) : FirstListener.State :=
  fold_left (fun st e => FirstListener.handleAlert db (delivered e) (as_update e) st)
    events st.

(** ** The pages *)

(** Whether a value counts as true in a condition. *)
Definition truthy_value (v : JS.value) : bool :=
  match v with
  | JS.Undefined | JS.Null => false
  | JS.Boolean b => b
  | JS.Number JS.NaN => false
  | JS.Number (JS.Fin q) => negb (Qeq_bool q 0)
  | JS.Number _ => true
  | JS.Str s => negb (String.eqb s "")
  end.

(** [src/pages/Alerts.tsx] *)
Module AlertsPage.

Record Tabs := {
  liveAlerts : list Alert;
  pastAlerts : list Alert;
  solvedCases : list Alert;
  unsolvedCases : list Alert
}.

Definition has_status (s : string) (a : Alert) : bool := String.eqb (status (row a)) s.

(** [fetchAlerts], given the rows the query came back with ([data] may
    be [null]). *)
Definition fetchAlerts (data : option (list Alert)) : Tabs :=
  let alerts := default [] data in
  {| liveAlerts := List.filter (has_status "active") alerts;
     pastAlerts := List.filter (fun a => negb (has_status "active" a)) alerts;
     solvedCases := List.filter (has_status "resolved") alerts;
     unsolvedCases := List.filter (has_status "active") alerts |}.

Inductive Icon := Flame | Wind | Thermometer | Users | AlertTriangle.

Definition getAlertIcon (type : string) : Icon :=
  if String.eqb type "fire" then Flame
  else if String.eqb type "gas" then Wind
  else if String.eqb type "temp" then Thermometer
  else if String.eqb type "motion" then Users
  else AlertTriangle.

(** The flame line of [AlertBox]:
    [alert.sensor_values.flame ? "Detected" : "None"]. *)
Definition flameLine (a : Alert) : string :=
  if truthy_value (flame (sensor_values (row a))) then "Detected" else "None".

(** The "Mark Solved" and "False Alarm" buttons are there for an active
    alert only. *)
Definition has_buttons (a : Alert) : bool := has_status "active" a.

End AlertsPage.

(** [src/pages/LocationsStatus.tsx] *)
Module StatusPage.

Record SensorData := {
  field1 : JS.value;   (* temperature *)
  field2 : JS.value;   (* humidity *)
  field3 : JS.value;   (* flame *)
  field4 : JS.value;   (* gas *)
  field5 : JS.value;   (* PIR *)
  created_at : JS.value
}.

(** [v || 0] *)
Definition or_zero (v : JS.value) : JS.value :=
  if truthy_value v then v else JS.Number (JS.of_Z 0).

(** The entry [fetchSensorData] stores for a location. *)
Definition shown_data (sensors : Sensors) : SensorData :=
  {| field1 := or_zero (temperature sensors);
     field2 := or_zero (humidity sensors);
     field3 := or_zero (flame sensors);
     field4 := or_zero (gas sensors);
     field5 := or_zero (pir sensors);
     created_at := captured_at sensors |}.

Definition flameLine (d : SensorData) : string :=
  if JS.strict_eq_str (field3 d) "FLAME" then "Detected" else "None".

Definition motionLine (d : SensorData) : string :=
  if JS.strict_eq_str (field5 d) "0" then "Detected" else "None".

(** A toast of the page: title, description, variant. *)
Record PageToast := {
  title : string;
  description : string;
  variant : string
}.

Section Evaluate.

Variable StringToNumber : string -> JS.number.

(** [evaluateAlerts]: the call of the edge function, and the toast when
    the reply says [created]. A reply that is not a 2xx comes back from
    [functions.invoke] as [error]. *)
Definition evaluateAlerts (env : Env) (locationId' : string)
    (st : Store) (page : list PageToast) : Store * list PageToast :=
  let '(reply, st') :=
    AlertManager.serve StringToNumber env
      {| method := "POST"; authorization := None; action := "evaluate";
         locationId := locationId'; alertId := ""; new_status := "" |} st in
  if negb (http_status reply =? 200) then (st', page)
  else
    match body reply with
    | AlertCreated alert =>
        (st', (page ++
               [{| title := "🚨 Alert Created!";
                   description :=
                     toUpperCase (alert_type (row alert)) ++ " detected - " ++
                     severity (row alert) ++ " severity";
                   variant := "destructive" |}])%list)
    | _ => (st', page)
    end.

End Evaluate.

End StatusPage.

(** ** The listener that refreshes its toasts

    The revision of [GlobalAlertListener] that keeps the handle of each
    toast and, for an alert whose toast is up, updates the toast in place. *)
Module UpdatingListener.

(** The calls made on the toast hook and its handles. *)
Inductive Call :=
| Show (handle : nat) (alert title description : string)   (* [toast({...})] *)
| Refresh (handle : nat) (title description : string)      (* [existing.update({..., open: true})] *)
| Close (handle : nat)                                     (* [existing.dismiss()] *)
| Beep.

Record State := {
  shownAlerts : gset string;
  alertToasts : gmap string nat;
  calls : list Call;
  issued : nat   (* the id counter of the hook *)
}.

Definition closed (status : option string) : bool :=
  bool_decide (status = Some "solved") || bool_decide (status = Some "unsolved").

(** Up to the [await]. *)
Definition receive (new : option Payload.t) (st : State) : State * option Payload.t :=
  match new with
  | None => (st, None)
  | Some alert =>
      let alertId := Payload.id alert in
      if closed (Payload.status alert) then
        let st1 :=
          match alertToasts st !! alertId with
          | Some existing =>
              {| shownAlerts := shownAlerts st;
                 alertToasts := delete alertId (alertToasts st);
                 calls := calls st ++ [Close existing];
                 issued := issued st |}
          | None => st
          end in
        ({| shownAlerts := shownAlerts st1 ∖ {[alertId]};
            alertToasts := alertToasts st1;
            calls := calls st1;
            issued := issued st1 |}, None)
      else
        ({| shownAlerts := {[alertId]} ∪ shownAlerts st;
            alertToasts := alertToasts st;
            calls := calls st;
            issued := issued st |}, Some alert)
  end.

(** After the [await]: refresh the toast that is up, or show a new one
    and play the sound. *)
Definition resume (alert : Payload.t) (location : option Location) (st : State) : State :=
  let title := title_of (Payload.alert_type alert) in
  let description := description_of location (Payload.severity alert) in
  match alertToasts st !! Payload.id alert with
  | Some existing =>
      {| shownAlerts := shownAlerts st;
         alertToasts := alertToasts st;
         calls := calls st ++ [Refresh existing title description];
         issued := issued st |}
  | None =>
      {| shownAlerts := shownAlerts st;
         alertToasts := <[Payload.id alert := issued st]> (alertToasts st);
         calls := calls st ++
                  [Show (issued st) (Payload.id alert) title description; Beep];
         issued := S (issued st) |}
  end.

Definition handleAlert (db : Store) (new : option Payload.t) (st : State) : State :=
  match receive new st with
  | (st', Some alert) => resume alert (fetch_location db alert) st'
  | (st', None) => st'
  end.

End UpdatingListener.

(** ** More sample data *)

Module Scenario.

(** A store that knows no location. *)
Definition nowhere : Store :=
  {| locations := ∅; alerts := {[ "a1" := Sample.raised 10 "active" ]} |}.

(** A status update without credentials, and one with a token nobody
    owns. *)
Definition anonymous : Request :=
  {| method := "POST"; authorization := None; action := "update";
     locationId := ""; alertId := "a1"; new_status := "resolved" |}.

Definition stranger : Request :=
  {| method := "POST"; authorization := Some "Bearer nobody"; action := "update";
     locationId := ""; alertId := "a1"; new_status := "resolved" |}.

(** The burning reading again, with motion and another humidity. *)
Definition moving : Sensors :=
  {| temperature := Sample.num 20;
     humidity := Sample.num 75;
     flame := JS.Str "FLAME";
     gas := Sample.num 50;
     pir := JS.Str "0";
     captured_at := JS.Null |}.

(** A reading without gas and temperature. *)
Definition partial : Sensors :=
  Sample.reading (JS.Str "NO FLAME") JS.Undefined JS.Null.

(** The record the first evaluation of the burning reading creates. *)
Definition created : Alert :=
  {| id := "a2";
     row := detected "L" "fire" "critical" Sample.burning (100 * Sample.minute + 5) |}.

(** Another alert at location L, and one at location M. *)
Definition second (status' : string) : Payload.t :=
  {| Payload.id := "b1";
     Payload.status := Some status';
     Payload.alert_type := "gas_leak";
     Payload.severity := "critical";
     Payload.location_id := "L" |}.

Definition elsewhere : Payload.t :=
  {| Payload.id := "c1";
     Payload.status := Some "in_queue";
     Payload.alert_type := "temperature";
     Payload.severity := "critical";
     Payload.location_id := "M" |}.

Definition insert_of (alert : Payload.t) : Delivery :=
  {| delivered := Some alert; as_update := false |}.

Definition update_of (alert : Payload.t) : Delivery :=
  {| delivered := Some alert; as_update := true |}.

(** The other two listeners right after mounting. *)
Definition unmounted : LocationListener.State :=
  {| LocationListener.shownLocations := ∅; LocationListener.screen := [] |}.

Definition fresh : FirstListener.State :=
  {| FirstListener.shownAlerts := ∅; FirstListener.screen := Sample.blank |}.

Definition starting : UpdatingListener.State :=
  {| UpdatingListener.shownAlerts := ∅;
     UpdatingListener.alertToasts := ∅;
     UpdatingListener.calls := [];
     UpdatingListener.issued := 0 |}.

(** A stored gas-leak alert whose sensor saw no flame. *)
Definition leak_alert : Alert :=
  {| id := "a1"; row := Sample.raised 10 "active" |}.

End Scenario.

(** * Properties *)

(** ** The threshold checks *)

Lemma strict_eq_str_spec (v : JS.value) (s : string) :
  JS.strict_eq_str v s = true <-> v = JS.Str s.
Proof.
  destruct v as [| |b|n|t]; simpl; split; try discriminate.
  - intros H. apply String.eqb_eq in H. now subst.
  - intros [= ->]. apply String.eqb_refl.
Qed.

Lemma strict_eq_str_false (v : JS.value) (s : string) :
  JS.strict_eq_str v s = false <-> v <> JS.Str s.
Proof.
  rewrite <- strict_eq_str_spec. destruct (JS.strict_eq_str v s); split; congruence.
Qed.

Section ThresholdFacts.

Context (StringToNumber : string -> JS.number).

Local Abbreviation above := (Reading.above StringToNumber).
Local Abbreviation exactly := (Reading.exactly StringToNumber).
Local Abbreviation gt_literal := (JS.gt_literal StringToNumber).
Local Abbreviation classify := (AlertManager.classify StringToNumber).

(** The comparison the code makes is the order of the numbers compared. *)
Lemma gt_literal_above (v : JS.value) (k : Z) :
  gt_literal v k = true <-> above v k.
Proof.
  unfold JS.gt_literal, Reading.above, JS.gt, JS.lt, JS.of_Z.
  destruct (JS.ToNumber StringToNumber v) as [| | |q]; try easy.
  rewrite negb_true_iff, <- not_true_iff_false, Qle_bool_iff.
  split; [apply Qnot_le_lt | apply Qlt_not_le].
Qed.

Lemma gt_literal_not_above (v : JS.value) (k : Z) :
  gt_literal v k = false <-> ~ above v k.
Proof.
  rewrite <- gt_literal_above. destruct (gt_literal v k); split; congruence.
Qed.

(** Equality at a threshold is not above it. *)
Lemma exactly_not_above (v : JS.value) (k : Z) : exactly v k -> ~ above v k.
Proof.
  unfold Reading.exactly, Reading.above.
  destruct (JS.ToNumber StringToNumber v) as [| | |q]; try easy.
  intros Heq Hlt. rewrite Heq in Hlt. now apply Qlt_irrefl in Hlt.
Qed.

(** The chain as one case analysis. *)
Lemma classify_cases (sensors : Sensors) :
  classify sensors =
    if JS.strict_eq_str (flame sensors) "FLAME" then Some ("fire", "critical")
    else if gt_literal (gas sensors) 400 then Some ("gas_leak", "critical")
    else if gt_literal (temperature sensors) 35 then Some ("temperature", "critical")
    else None.
Proof.
  unfold AlertManager.classify, AlertManager.threshold_checks,
    Thresholds.gas_critical, Thresholds.temperature_critical.
  destruct (JS.strict_eq_str (flame sensors) "FLAME"); [reflexivity|].
  destruct (gt_literal (gas sensors) 400); [reflexivity|].
  destruct (gt_literal (temperature sensors) 35); reflexivity.
Qed.

(** C1. The evaluation is a fixed-priority chain: a detected flame gives
    (fire, critical) whatever gas and temperature read; otherwise gas above
    400 gives (gas_leak, critical); otherwise temperature above 35 gives
    (temperature, critical); otherwise there is no classification. *)
Theorem classify_priority_chain (sensors : Sensors) :
  (flame_detected sensors -> classify sensors = Some ("fire", "critical")) /\
  (~ flame_detected sensors -> above (gas sensors) 400 ->
   classify sensors = Some ("gas_leak", "critical")) /\
  (~ flame_detected sensors -> ~ above (gas sensors) 400 ->
   above (temperature sensors) 35 ->
   classify sensors = Some ("temperature", "critical")) /\
  (~ flame_detected sensors -> ~ above (gas sensors) 400 ->
   ~ above (temperature sensors) 35 ->
   classify sensors = None).
Proof.
  unfold flame_detected. rewrite classify_cases.
  repeat split.
  - intros Hf. apply strict_eq_str_spec in Hf. now rewrite Hf.
  - intros Hf Hg. apply strict_eq_str_false in Hf. apply gt_literal_above in Hg.
    now rewrite Hf, Hg.
  - intros Hf Hg Ht. apply strict_eq_str_false in Hf.
    apply gt_literal_not_above in Hg. apply gt_literal_above in Ht.
    now rewrite Hf, Hg, Ht.
  - intros Hf Hg Ht. apply strict_eq_str_false in Hf.
    apply gt_literal_not_above in Hg. apply gt_literal_not_above in Ht.
    now rewrite Hf, Hg, Ht.
Qed.

(** C7. With no flame, gas not above 400 and a temperature of exactly 35
    there is no classification: the comparisons are strict, so a reading
    equal to its threshold is not above it. *)
Theorem classify_temperature_boundary (sensors : Sensors) :
  ~ flame_detected sensors ->
  ~ above (gas sensors) 400 ->
  exactly (temperature sensors) 35 ->
  classify sensors = None /\ ~ above (temperature sensors) 35.
Proof.
  intros Hf Hg Ht. pose proof (exactly_not_above _ _ Ht) as Hn.
  split; [|exact Hn].
  rewrite classify_cases.
  apply strict_eq_str_false in Hf. apply gt_literal_not_above in Hg, Hn.
  now rewrite Hf, Hg, Hn.
Qed.

(** C10. The fire check succeeds on the string ["FLAME"] and on nothing
    else: with any other flame value (a boolean, ["1"], a number) the
    result is the one of the gas and temperature checks. *)
Theorem fire_only_on_FLAME_string (sensors : Sensors) :
  (forall sev, classify sensors = Some ("fire", sev) -> flame sensors = JS.Str "FLAME") /\
  (flame sensors = JS.Str "FLAME" -> classify sensors = Some ("fire", "critical")) /\
  (flame sensors <> JS.Str "FLAME" ->
   classify sensors =
     if gt_literal (gas sensors) 400 then Some ("gas_leak", "critical")
     else if gt_literal (temperature sensors) 35 then Some ("temperature", "critical")
     else None).
Proof.
  rewrite classify_cases.
  destruct (JS.strict_eq_str (flame sensors) "FLAME") eqn:Hf.
  - apply strict_eq_str_spec in Hf. repeat split; congruence.
  - apply strict_eq_str_false in Hf. repeat split; try congruence.
    intros sev.
    destruct (gt_literal (gas sensors) 400); [discriminate|].
    destruct (gt_literal (temperature sensors) 35); discriminate.
Qed.

(** Every classification carries the severity ["critical"]. *)
Lemma classify_critical (sensors : Sensors) (ty sev : string) :
  classify sensors = Some (ty, sev) -> sev = "critical".
Proof.
  rewrite classify_cases.
  destruct (JS.strict_eq_str (flame sensors) "FLAME"); [congruence|].
  destruct (gt_literal (gas sensors) 400); [congruence|].
  destruct (gt_literal (temperature sensors) 35); congruence.
Qed.

End ThresholdFacts.

Lemma classify_priority_chain_witness :
  AlertManager.classify Sample.StringToNumber Sample.burning = Some ("fire", "critical") /\
  AlertManager.classify Sample.StringToNumber Sample.leaking = Some ("gas_leak", "critical") /\
  AlertManager.classify Sample.StringToNumber Sample.hot = Some ("temperature", "critical") /\
  AlertManager.classify Sample.StringToNumber Sample.nominal = None.
Proof.
  split; [|split; [|split]].
  - apply (classify_priority_chain Sample.StringToNumber Sample.burning).
    reflexivity.
  - apply (classify_priority_chain Sample.StringToNumber Sample.leaking).
    + discriminate.
    + vm_compute. reflexivity.
  - apply (classify_priority_chain Sample.StringToNumber Sample.hot).
    + discriminate.
    + vm_compute. discriminate.
    + vm_compute. reflexivity.
  - apply (classify_priority_chain Sample.StringToNumber Sample.nominal).
    + discriminate.
    + vm_compute. discriminate.
    + vm_compute. discriminate.
Defined.

Lemma classify_temperature_boundary_witness :
  AlertManager.classify Sample.StringToNumber Sample.nominal = None /\
  ~ Reading.above Sample.StringToNumber (temperature Sample.nominal) 35.
Proof.
  apply (classify_temperature_boundary Sample.StringToNumber Sample.nominal).
  - discriminate.
  - vm_compute. discriminate.
  - vm_compute. reflexivity.
Defined.

Lemma fire_only_on_FLAME_string_witness :
  AlertManager.classify Sample.StringToNumber
    (Sample.reading (JS.Boolean true) (Sample.num 50) (Sample.num 20)) = None /\
  AlertManager.classify Sample.StringToNumber
    (Sample.reading (JS.Str "1") (Sample.num 450) (Sample.num 20))
    = Some ("gas_leak", "critical") /\
  AlertManager.classify Sample.StringToNumber
    (Sample.reading (Sample.num 1) (Sample.num 50) (Sample.num 36))
    = Some ("temperature", "critical").
Proof.
  split; [|split].
  - apply (fire_only_on_FLAME_string Sample.StringToNumber
             (Sample.reading (JS.Boolean true) (Sample.num 50) (Sample.num 20))).
    discriminate.
  - apply (fire_only_on_FLAME_string Sample.StringToNumber
             (Sample.reading (JS.Str "1") (Sample.num 450) (Sample.num 20))).
    discriminate.
  - apply (fire_only_on_FLAME_string Sample.StringToNumber
             (Sample.reading (Sample.num 1) (Sample.num 50) (Sample.num 36))).
    discriminate.
Defined.

(** ** The store *)

Lemma most_recent_None (l : list Alert) : most_recent l = None <-> l = [].
Proof.
  destruct l as [|a l]; simpl; [easy|].
  destruct (most_recent l) as [b|]; [|easy].
  destruct (timestamp (row b) <? timestamp (row a)); easy.
Qed.

Lemma most_recent_Some (l : list Alert) (a : Alert) :
  most_recent l = Some a ->
  In a l /\ forall b, In b l -> timestamp (row b) <= timestamp (row a).
Proof.
  revert a. induction l as [|x l IH]; simpl; [discriminate|].
  intros a. destruct (most_recent l) as [b|] eqn:Hl.
  - destruct (IH b eq_refl) as [Hin Hmax].
    destruct (Z.ltb_spec (timestamp (row b)) (timestamp (row x))) as [Hlt|Hge];
      intros [= <-]; split; auto.
    + intros c [<-|Hc]; [lia|]. specialize (Hmax c Hc). lia.
    + intros c [<-|Hc]; [lia|]. auto.
  - apply most_recent_None in Hl. subst l. intros [= <-]. split; [now left|].
    intros c [<-|[]]. lia.
Qed.

Lemma in_alert_rows (st : Store) (a : Alert) :
  In a (alert_rows st) <-> alerts st !! id a = Some (row a).
Proof.
  unfold alert_rows. rewrite in_map_iff. split.
  - intros [[k r] [<- Hin]]. simpl.
    now apply list_elem_of_In, elem_of_map_to_list in Hin.
  - intros H. exists (id a, row a). split; [now destruct a|].
    now apply list_elem_of_In, elem_of_map_to_list.
Qed.

Lemma recent_for_spec (locationId : string) (t : Z) (a : Alert) :
  recent_for locationId t a = true <->
  location_id (row a) = locationId /\ t <= timestamp (row a).
Proof.
  unfold recent_for. rewrite andb_true_iff, String.eqb_eq, Z.leb_le. tauto.
Qed.

(** The lookup finds nothing exactly when the location has no row in the
    window. *)
Lemma select_recent_alert_none (st : Store) (locationId : string) (t : Z) :
  (forall k r, alerts st !! k = Some r -> location_id r = locationId ->
               timestamp r < t) ->
  reply_data (select_recent_alert st locationId t) = None.
Proof.
  intros Hold. unfold select_recent_alert.
  destruct (most_recent _) as [a|] eqn:Ha; [|reflexivity].
  apply most_recent_Some in Ha as [Hin _].
  apply filter_In in Hin as [Hin Hrec].
  apply in_alert_rows in Hin. apply recent_for_spec in Hrec as [Hloc Hts].
  specialize (Hold _ _ Hin Hloc). lia.
Qed.

(** Otherwise it returns a stored row of the location, inside the window,
    that no other such row is more recent than. *)
Lemma select_recent_alert_some (st : Store) (locationId : string) (t : Z)
    (k : string) (r : AlertRow) :
  alerts st !! k = Some r -> location_id r = locationId -> t <= timestamp r ->
  exists a,
    reply_data (select_recent_alert st locationId t) = Some a /\
    alerts st !! id a = Some (row a) /\
    location_id (row a) = locationId /\
    t <= timestamp (row a) /\
    forall k' r', alerts st !! k' = Some r' -> location_id r' = locationId ->
                  t <= timestamp r' -> timestamp r' <= timestamp (row a).
Proof.
  intros Hk Hloc Hts. unfold select_recent_alert.
  destruct (most_recent _) as [a|] eqn:Ha.
  - exists a. apply most_recent_Some in Ha as [Hin Hmax].
    apply filter_In in Hin as [Hin Hrec].
    apply in_alert_rows in Hin. apply recent_for_spec in Hrec as [Hl Ht].
    repeat (split; [assumption || reflexivity|]).
    intros k' r' Hk' Hl' Ht'.
    apply (Hmax {| id := k'; row := r' |}).
    apply filter_In. split; [now apply in_alert_rows|].
    now apply recent_for_spec.
  - apply most_recent_None in Ha.
    assert (Hin : In {| id := k; row := r |}
                    (List.filter (recent_for locationId t) (alert_rows st))).
    { apply filter_In. split; [now apply in_alert_rows|]. now apply recent_for_spec. }
    rewrite Ha in Hin. destruct Hin.
Qed.

(** Rewriting a row without moving it to another location keeps the
    number of records of every location. *)
Lemma records_of_rewrite (st : Store) (k : string) (r r' : AlertRow) (loc : string) :
  alerts st !! k = Some r -> location_id r' = location_id r ->
  records_of loc (set_alerts st (<[k := r']> (alerts st))) = records_of loc st.
Proof.
  intros Hk Hloc. unfold records_of. simpl.
  rewrite map_filter_insert. simpl. rewrite Hloc. case_decide as Hp.
  - apply map_size_insert_Some. exists r.
    apply map_lookup_filter_Some. split; [assumption|exact Hp].
  - rewrite map_filter_delete. apply map_size_delete_None.
    apply map_lookup_filter_None. right. intros x Hx. simpl.
    rewrite Hk in Hx. now injection Hx as <-.
Qed.

(** A new row adds one record to its location and none to the others. *)
Lemma records_of_insert (st : Store) (k : string) (r : AlertRow) (loc : string) :
  alerts st !! k = None ->
  records_of loc (set_alerts st (<[k := r]> (alerts st))) =
  if decide (location_id r = loc) then S (records_of loc st) else records_of loc st.
Proof.
  intros Hk. unfold records_of. simpl.
  rewrite map_filter_insert. simpl. case_decide as Hp.
  - apply map_size_insert_None. apply map_lookup_filter_None. now left.
  - rewrite map_filter_delete. apply map_size_delete_None.
    apply map_lookup_filter_None. now left.
Qed.

(** ** The [evaluate] action *)

Section EvaluateFacts.

Context (StringToNumber : string -> JS.number).

Local Abbreviation classify := (AlertManager.classify StringToNumber).
Local Abbreviation create_or_update := (AlertManager.create_or_update StringToNumber).
Local Abbreviation evaluate := (AlertManager.evaluate StringToNumber).
Local Abbreviation serve := (AlertManager.serve StringToNumber).

Lemma serve_evaluate (env : Env) (req : Request) (st : Store) :
  evaluate_request req ->
  serve env req st = reply_of (evaluate env (locationId req) st).
Proof.
  intros [Hm Ha]. unfold AlertManager.serve.
  apply String.eqb_neq in Hm. now rewrite Hm, Ha.
Qed.

Lemma no_sensor_data_true (env : Env) (location : Location) :
  telemetry_unavailable env location ->
  no_sensor_data (invoke_thingspeak env location) = true.
Proof.
  unfold telemetry_unavailable, no_sensor_data.
  intros [He|[Hd|(sd & Hd & Hs)]].
  - now destruct (sensorError _).
  - rewrite Hd. now destruct (sensorError _).
  - rewrite Hd. destruct (sensorError _); [reflexivity|].
    destruct Hs as [-> | ->]; [reflexivity|apply orb_true_r].
Qed.

Lemma evaluate_telemetry (env : Env) (locationId : string) (st : Store)
    (location : Location) (sensors : Sensors) :
  locations st !! locationId = Some location ->
  telemetry env location sensors ->
  evaluate env locationId st = create_or_update env locationId sensors st.
Proof.
  intros Hl (He & sd & Hd & Hs & Hdata).
  unfold AlertManager.evaluate, select_location. rewrite Hl.
  unfold no_sensor_data. rewrite He, Hd, Hs, Hdata. simpl.
  now rewrite Hdata.
Qed.

(** C8. When the telemetry fetch fails or returns no data, the reply is a
    success carrying the message "No sensor data available" (status 200,
    no error), and the store is left as it was: no alert is created and
    none is updated. *)
Theorem evaluate_without_telemetry (env : Env) (req : Request) (st : Store)
    (location : Location) :
  evaluate_request req ->
  locations st !! locationId req = Some location ->
  telemetry_unavailable env location ->
  serve env req st = (ok (Message "No sensor data available" None), st).
Proof.
  intros Hreq Hl Hu. rewrite serve_evaluate by assumption.
  unfold AlertManager.evaluate, select_location. rewrite Hl.
  now rewrite (no_sensor_data_true _ _ Hu).
Qed.

(** C2. If the location has a classification and no alert record stamped
    within the last 60 minutes, the action inserts one new record --
    status active, stamped with the current time, carrying the
    classification's type and severity -- and reports it as created; all
    other records are left as they were. *)
Theorem evaluate_creates (env : Env) (req : Request) (st : Store)
    (location : Location) (sensors : Sensors) (ty sev : string) :
  evaluate_request req ->
  locations st !! locationId req = Some location ->
  telemetry env location sensors ->
  classify sensors = Some (ty, sev) ->
  (forall k r, alerts st !! k = Some r -> location_id r = locationId req ->
               ~ within_last_hour (date_now env) r) ->
  alerts st !! default_id env = None ->
  exists new st',
    serve env req st = (ok (AlertCreated {| id := default_id env; row := new |}), st') /\
    location_id new = locationId req /\
    status new = "active" /\
    timestamp new = new_Date env /\
    alert_type new = ty /\ severity new = sev /\
    sensor_values new = sensors /\
    alerts st' = <[default_id env := new]> (alerts st) /\
    locations st' = locations st /\
    size (alerts st') = S (size (alerts st)) /\
    records_of (locationId req) st' = S (records_of (locationId req) st).
Proof.
  intros Hreq Hl Ht Hc Hold Hfresh.
  rewrite serve_evaluate by assumption.
  rewrite (evaluate_telemetry _ _ _ _ _ Hl Ht).
  unfold AlertManager.create_or_update. rewrite Hc.
  rewrite select_recent_alert_none.
  2:{ intros k r Hk Hloc. specialize (Hold k r Hk Hloc).
      unfold within_last_hour in Hold. lia. }
  unfold insert_alert. rewrite Hfresh. simpl.
  eexists _, _. split; [reflexivity|]. simpl.
  repeat (split; [reflexivity|]). split.
  - now apply map_size_insert_None.
  - pose proof (records_of_insert st (default_id env)
                  (detected (locationId req) ty sev sensors (new_Date env))
                  (locationId req) Hfresh) as Hn.
    simpl in Hn. rewrite decide_True in Hn by reflexivity. exact Hn.
Qed.

(** C3. If the location has a classification and an alert record stamped
    within the last 60 minutes, whatever its status, the action rewrites
    the most recent such record in place -- type, severity, sensor values
    and timestamp -- and inserts nothing: status, id, location and the
    resolution fields stay, every other record stays, and the number of
    records of each location is unchanged. *)
Theorem evaluate_updates (env : Env) (req : Request) (st : Store)
    (location : Location) (sensors : Sensors) (ty sev : string)
    (k : string) (r : AlertRow) :
  evaluate_request req ->
  locations st !! locationId req = Some location ->
  telemetry env location sensors ->
  classify sensors = Some (ty, sev) ->
  alerts st !! k = Some r ->
  location_id r = locationId req ->
  within_last_hour (date_now env) r ->
  exists key old new st',
    serve env req st = (ok (AlertUpdated {| id := key; row := new |}), st') /\
    (* the record that is rewritten *)
    alerts st !! key = Some old /\
    location_id old = locationId req /\
    within_last_hour (date_now env) old /\
    (forall k' r', alerts st !! k' = Some r' -> location_id r' = locationId req ->
                   within_last_hour (date_now env) r' ->
                   timestamp r' <= timestamp old) /\
    ((forall k' r', alerts st !! k' = Some r' -> location_id r' = locationId req ->
                    within_last_hour (date_now env) r' -> k' = k) ->
     key = k /\ old = r) /\
    (* what changes *)
    alert_type new = ty /\ severity new = sev /\
    sensor_values new = sensors /\ timestamp new = new_Date env /\
    (* what does not *)
    status new = status old /\ location_id new = location_id old /\
    resolved_at new = resolved_at old /\ resolved_by new = resolved_by old /\
    alerts st' = <[key := new]> (alerts st) /\
    locations st' = locations st /\
    (forall k', k' <> key -> alerts st' !! k' = alerts st !! k') /\
    dom (alerts st') = dom (alerts st) /\
    size (alerts st') = size (alerts st) /\
    (forall loc, records_of loc st' = records_of loc st).
Proof.
  intros Hreq Hl Ht Hc Hk Hloc Hwin.
  rewrite serve_evaluate by assumption.
  rewrite (evaluate_telemetry _ _ _ _ _ Hl Ht).
  unfold AlertManager.create_or_update. rewrite Hc.
  destruct (select_recent_alert_some st (locationId req)
              (date_now env - 60 * 60 * 1000) k r Hk Hloc Hwin)
    as (a & Ha & Hin & Haloc & Hawin & Hmax).
  rewrite Ha. unfold update_alert. rewrite Hin. simpl.
  exists (id a), (row a). eexists _, _. split; [reflexivity|]. simpl.
  split; [exact Hin|]. split; [exact Haloc|]. split; [exact Hawin|].
  split; [exact Hmax|]. split.
  { intros Huniq. pose proof (Huniq _ _ Hin Haloc Hawin) as Hkey.
    split; [exact Hkey|]. rewrite Hkey in Hin. congruence. }
  repeat (split; [reflexivity|]).
  split; [|split; [|split]].
  - intros k' Hne. now apply lookup_insert_ne.
  - apply dom_insert_lookup_L. now exists (row a).
  - apply map_size_insert_Some. now exists (row a).
  - intros loc. now apply (records_of_rewrite st (id a) (row a)).
Qed.

(** C9. Whatever the readings, a classification has severity "critical",
    and so has every record the [evaluate] action creates or rewrites:
    the record in its reply, and any row of the store that differs from
    what was there before. *)
Theorem evaluate_severity_critical (env : Env) (req : Request) (st : Store) :
  (forall sensors ty sev, classify sensors = Some (ty, sev) -> sev = "critical") /\
  (evaluate_request req ->
   (forall a, body (fst (serve env req st)) = AlertCreated a \/
              body (fst (serve env req st)) = AlertUpdated a ->
              severity (row a) = "critical") /\
   (forall k' r', alerts (snd (serve env req st)) !! k' = Some r' ->
                  alerts st !! k' <> Some r' -> severity r' = "critical")).
Proof.
  split; [apply classify_critical|].
  intros Hreq. rewrite serve_evaluate by assumption.
  unfold AlertManager.evaluate.
  destruct (select_location st (locationId req)) as [location|e]; simpl.
  2:{ split; [intros a [H|H]; discriminate | intros k' r' H1 H2; contradiction]. }
  destruct (no_sensor_data _); simpl.
  { split; [intros a [H|H]; discriminate | intros k' r' H1 H2; contradiction]. }
  destruct (_ ≫= data) as [sensors|]; simpl.
  2:{ split; [intros a [H|H]; discriminate | intros k' r' H1 H2; contradiction]. }
  unfold AlertManager.create_or_update.
  destruct (classify sensors) as [[ty sev]|] eqn:Hc; simpl.
  2:{ split; [intros a [H|H]; discriminate | intros k' r' H1 H2; contradiction]. }
  apply classify_critical in Hc. subst sev.
  destruct (reply_data _) as [existing|].
  - unfold update_alert. destruct (alerts st !! id existing) as [old|] eqn:Hold; simpl.
    + split.
      * intros a [H|H]; [discriminate|]. now injection H as <-.
      * intros k' r'. destruct (decide (k' = id existing)) as [->|Hne].
        -- rewrite lookup_insert_eq. now intros [= <-] _.
        -- rewrite lookup_insert_ne by congruence. intros H1 H2. contradiction.
    + split; [intros a [H|H]; discriminate | intros k' r' H1 H2; contradiction].
  - unfold insert_alert. destruct (alerts st !! default_id env) as [taken|] eqn:Hid; simpl.
    + split; [intros a [H|H]; discriminate | intros k' r' H1 H2; contradiction].
    + split.
      * intros a [H|H]; [|discriminate]. now injection H as <-.
      * intros k' r'. destruct (decide (k' = default_id env)) as [->|Hne].
        -- rewrite lookup_insert_eq. now intros [= <-] _.
        -- rewrite lookup_insert_ne by congruence. intros H1 H2. contradiction.
Qed.

End EvaluateFacts.

Lemma evaluate_without_telemetry_witness :
  AlertManager.serve Sample.StringToNumber (Sample.env Sample.unreachable) Sample.evaluate_L
    (Sample.store {[ "a1" := Sample.raised 61 "active" ]})
  = (ok (Message "No sensor data available" None),
     Sample.store {[ "a1" := Sample.raised 61 "active" ]}).
Proof.
  apply (evaluate_without_telemetry Sample.StringToNumber
           (Sample.env Sample.unreachable) Sample.evaluate_L
           (Sample.store {[ "a1" := Sample.raised 61 "active" ]}) Sample.lab).
  - split; [discriminate | reflexivity].
  - reflexivity.
  - left. discriminate.
Defined.

(** A record stamped 61 minutes ago is outside the window: a new record is
    created next to it. *)
Lemma evaluate_creates_witness :
  exists new st',
    AlertManager.serve Sample.StringToNumber (Sample.env (Sample.answers Sample.burning))
      Sample.evaluate_L (Sample.store {[ "a1" := Sample.raised 61 "active" ]})
    = (ok (AlertCreated {| id := "a2"; row := new |}), st') /\
    status new = "active" /\ alert_type new = "fire" /\ severity new = "critical" /\
    alerts st' !! "a1" = Some (Sample.raised 61 "active") /\
    alerts st' !! "a2" = Some new /\
    records_of "L" st' = 2%nat.
Proof.
  destruct (evaluate_creates Sample.StringToNumber
              (Sample.env (Sample.answers Sample.burning)) Sample.evaluate_L
              (Sample.store {[ "a1" := Sample.raised 61 "active" ]})
              Sample.lab Sample.burning "fire" "critical")
    as (new & st' & Hs & _ & Hst & _ & Hty & Hsev & _ & Ha & _ & _ & Hn).
  - split; [discriminate | reflexivity].
  - reflexivity.
  - split; [reflexivity|]. eexists. repeat split.
  - reflexivity.
  - intros k r Hk _. unfold Sample.store in Hk. cbn [alerts] in Hk.
    apply lookup_singleton_Some in Hk as [_ <-].
    unfold within_last_hour. vm_compute. intros H. now apply H.
  - reflexivity.
  - exists new, st'. split; [exact Hs|].
    split; [exact Hst|]. split; [exact Hty|]. split; [exact Hsev|].
    rewrite Ha. split; [reflexivity|]. split; [apply lookup_insert_eq|].
    etrans; [exact Hn|]. vm_compute. reflexivity.
Defined.

(** A record stamped 10 minutes ago, already resolved, is rewritten in
    place and stays resolved. *)
Lemma evaluate_updates_witness :
  exists new st',
    AlertManager.serve Sample.StringToNumber (Sample.env (Sample.answers Sample.burning))
      Sample.evaluate_L (Sample.store {[ "a1" := Sample.raised 10 "resolved" ]})
    = (ok (AlertUpdated {| id := "a1"; row := new |}), st') /\
    alert_type new = "fire" /\ status new = "resolved" /\
    records_of "L" st' = 1%nat.
Proof.
  destruct (evaluate_updates Sample.StringToNumber
              (Sample.env (Sample.answers Sample.burning)) Sample.evaluate_L
              (Sample.store {[ "a1" := Sample.raised 10 "resolved" ]})
              Sample.lab Sample.burning "fire" "critical"
              "a1" (Sample.raised 10 "resolved"))
    as (key & old & new & st' & Hs & _ & _ & _ & _ & Hu & Hty & _ & _ & _ & Hst
        & _ & _ & _ & _ & _ & _ & _ & _ & Hn).
  - split; [discriminate | reflexivity].
  - reflexivity.
  - split; [reflexivity|]. eexists. repeat split.
  - reflexivity.
  - reflexivity.
  - reflexivity.
  - unfold within_last_hour. vm_compute. discriminate.
  - destruct Hu as [-> ->].
    { intros k' r' Hk' _ _. unfold Sample.store in Hk'. cbn [alerts] in Hk'.
      now apply lookup_singleton_Some in Hk' as [<- _]. }
    exists new, st'. split; [exact Hs|]. split; [exact Hty|].
    split; [exact Hst|]. etrans; [apply Hn|]. vm_compute. reflexivity.
Defined.

Lemma evaluate_severity_critical_witness :
  exists a,
    body (fst (AlertManager.serve Sample.StringToNumber (Sample.env (Sample.answers Sample.hot))
                 Sample.evaluate_L (Sample.store ∅))) = AlertCreated a /\
    alert_type (row a) = "temperature" /\
    severity (row a) = "critical".
Proof.
  eexists. split; [reflexivity|]. split; [reflexivity|].
  apply (evaluate_severity_critical Sample.StringToNumber
           (Sample.env (Sample.answers Sample.hot)) Sample.evaluate_L
           (Sample.store ∅)).
  - split; [discriminate | reflexivity].
  - left. reflexivity.
Defined.

(** ** The [update] action *)

Section UpdateFacts.

Context (StringToNumber : string -> JS.number).

Local Abbreviation serve := (AlertManager.serve StringToNumber).

Lemma serve_update (env : Env) (req : Request) (st : Store) (user : string) :
  update_request env req user ->
  serve env req st =
  (ok (Message "Alert updated successfully" None),
   set_alerts st
     (alter (with_status (new_status req) (new_Date env) user) (alertId req)
        (alerts st))).
Proof.
  intros (Hm & Ha & h & Hh & Hne & Hu). unfold AlertManager.serve.
  apply String.eqb_neq in Hm. rewrite Hm, Ha. simpl.
  unfold AlertManager.update. rewrite Hh. apply String.eqb_neq in Hne. rewrite Hne, Hu.
  reflexivity.
Qed.

(** C4, as the code has it. An authenticated status update stores the
    requested status; it stamps [resolved_at] with the current time and
    [resolved_by] with the caller exactly when the requested status is not
    "active" (so also for "in_queue"), and clears both when it is
    "active". The previous status plays no part, and no other record or
    column changes. *)
Theorem update_resolution_fields (env : Env) (req : Request) (st : Store)
    (user : string) :
  update_request env req user ->
  exists st',
    serve env req st = (ok (Message "Alert updated successfully" None), st') /\
    locations st' = locations st /\
    dom (alerts st') = dom (alerts st) /\
    (forall k, k <> alertId req -> alerts st' !! k = alerts st !! k) /\
    (forall old, alerts st !! alertId req = Some old ->
       exists new,
         alerts st' !! alertId req = Some new /\
         status new = new_status req /\
         (new_status req <> "active" ->
          resolved_at new = Some (new_Date env) /\ resolved_by new = Some user) /\
         (new_status req = "active" ->
          resolved_at new = None /\ resolved_by new = None) /\
         location_id new = location_id old /\ alert_type new = alert_type old /\
         severity new = severity old /\ sensor_values new = sensor_values old /\
         timestamp new = timestamp old).
Proof.
  intros Hreq. eexists. split; [now apply (serve_update env req st user)|]. simpl.
  split; [reflexivity|]. split; [apply dom_alter_L|].
  split; [intros k Hk; now apply lookup_alter_ne|].
  intros old Hold. eexists. split.
  { rewrite lookup_alter_eq, Hold. reflexivity. }
  simpl. split; [reflexivity|]. split; [|split].
  - intros Hne. apply String.eqb_neq in Hne. now rewrite Hne.
  - intros ->. now rewrite String.eqb_refl.
  - repeat split.
Qed.

End UpdateFacts.

Lemma update_resolution_fields_witness :
  exists new,
    alerts (snd (AlertManager.serve Sample.StringToNumber (Sample.env Sample.unreachable)
                   (Sample.set_status "a1" "resolved")
                   (Sample.store {[ "a1" := Sample.raised 10 "active" ]}))) !! "a1"
    = Some new /\
    status new = "resolved" /\
    resolved_at new = Some (100 * Sample.minute + 5) /\ resolved_by new = Some "u1".
Proof.
  destruct (update_resolution_fields Sample.StringToNumber
              (Sample.env Sample.unreachable) (Sample.set_status "a1" "resolved")
              (Sample.store {[ "a1" := Sample.raised 10 "active" ]}) "u1")
    as (st' & Hs & _ & _ & _ & Hrow).
  - split; [discriminate|]. split; [reflexivity|].
    exists "Bearer token". split; [reflexivity|]. split; [discriminate|reflexivity].
  - destruct (Hrow (Sample.raised 10 "active") eq_refl)
      as (new & Hnew & Hst & Hres & _).
    destruct Hres as [Hat Hby]; [discriminate|].
    exists new. rewrite Hs. simpl. now repeat split.
Defined.

(** C4 as stated fails: moving an active alert to "in_queue", a status
    that is still open, stamps [resolved_at] and [resolved_by]. *)
Lemma update_in_queue_stamps_resolution :
  let st := Sample.store {[ "a1" := Sample.raised 10 "active" ]} in
  let st' := snd (AlertManager.serve Sample.StringToNumber (Sample.env Sample.unreachable)
                    (Sample.set_status "a1" "in_queue") st) in
  (resolved_at <$> alerts st !! "a1") = Some None /\
  (status <$> alerts st' !! "a1") = Some "in_queue" /\
  (resolved_at <$> alerts st' !! "a1") = Some (Some (100 * Sample.minute + 5)) /\
  (resolved_by <$> alerts st' !! "a1") = Some (Some "u1").
Proof. vm_compute. repeat split. Qed.

(** ** The notification listeners *)

Lemma shows_app (alert : string) (l l' : list Effect) :
  shows alert (l ++ l') = (shows alert l + shows alert l')%nat.
Proof. unfold shows. now rewrite List.filter_app, List.length_app. Qed.

Lemma sounds_app (l l' : list Effect) :
  sounds (l ++ l') = (sounds l + sounds l')%nat.
Proof. unfold sounds. now rewrite List.filter_app, List.length_app. Qed.

Lemma dismissals_app (l l' : list Effect) :
  dismissals (l ++ l') = (dismissals l + dismissals l')%nat.
Proof. unfold dismissals. now rewrite List.filter_app, List.length_app. Qed.

(** *** [src/components/GlobalAlertListener.tsx] *)

(** An insert event for a key already shown changes nothing. *)
Lemma listener_receive_shown (alert : Payload.t) (st : Listener.State) :
  Payload.id alert ∈ Listener.shownAlerts st ->
  Listener.receive (Some alert) false st = (st, None).
Proof.
  intros Hin. unfold Listener.receive. simpl.
  now rewrite bool_decide_eq_true_2.
Qed.

(** A new insert event that is not closed marks the key and goes on to
    the toast. *)
Lemma listener_receive_new (alert : Payload.t) (st : Listener.State) :
  Payload.id alert ∉ Listener.shownAlerts st ->
  Listener.closed (Payload.status alert) = false ->
  Listener.receive (Some alert) false st =
  ({| Listener.shownAlerts := {[Payload.id alert]} ∪ Listener.shownAlerts st;
      Listener.screen := Listener.screen st |}, Some alert).
Proof.
  intros Hnew Hopen. unfold Listener.receive. simpl.
  now rewrite bool_decide_eq_false_2, Hopen.
Qed.

(** This listener never asks for a toast to be dismissed. *)
Lemma listener_never_dismisses (db : Store) (new : option Payload.t)
    (isUpdate : bool) (st : Listener.State) :
  dismissals (effects (Listener.screen (Listener.handleAlert db new isUpdate st))) =
  dismissals (effects (Listener.screen st)).
Proof.
  unfold Listener.handleAlert, Listener.receive.
  destruct new as [alert|]; [|reflexivity].
  destruct isUpdate.
  - now destruct (Listener.closed _).
  - destruct (bool_decide _); [reflexivity|].
    destruct (Listener.closed _); [reflexivity|]. simpl.
    rewrite !dismissals_app. unfold dismissals at 2 3. simpl. lia.
Qed.

(** *** The toast-handle revision *)

Lemma toast_receive_shown (alert : Payload.t) (st : ToastListener.State) :
  ToastListener.closed (default "active" (Payload.status alert)) = false ->
  Payload.id alert ∈ ToastListener.shownAlerts st ->
  ToastListener.receive (Some alert) st = (st, None).
Proof.
  intros Hopen Hin. unfold ToastListener.receive. simpl. rewrite Hopen.
  destruct (negb _); [reflexivity|]. now rewrite bool_decide_eq_true_2.
Qed.

Lemma toast_receive_new (alert : Payload.t) (st : ToastListener.State) :
  ToastListener.live (default "active" (Payload.status alert)) = true ->
  Payload.id alert ∉ ToastListener.shownAlerts st ->
  ToastListener.receive (Some alert) st =
  ({| ToastListener.shownAlerts := {[Payload.id alert]} ∪ ToastListener.shownAlerts st;
      ToastListener.alertToasts := ToastListener.alertToasts st;
      ToastListener.screen := ToastListener.screen st |}, Some alert).
Proof.
  intros Hlive Hnew. unfold ToastListener.receive. simpl.
  assert (Hc : ToastListener.closed (default "active" (Payload.status alert)) = false).
  { unfold ToastListener.live in Hlive. unfold ToastListener.closed.
    apply orb_true_iff in Hlive as [H|H]; apply String.eqb_eq in H; now rewrite H. }
  now rewrite Hc, Hlive, bool_decide_eq_false_2.
Qed.

(** What a closed event does to the state. *)
Lemma toast_receive_closed (alert : Payload.t) (st : ToastListener.State) :
  ToastListener.closed (default "active" (Payload.status alert)) = true ->
  ToastListener.receive (Some alert) st =
  ({| ToastListener.shownAlerts :=
        ToastListener.shownAlerts st ∖ {[Payload.id alert]};
      ToastListener.alertToasts :=
        delete (Payload.id alert) (ToastListener.alertToasts st);
      ToastListener.screen :=
        match ToastListener.alertToasts st !! Payload.id alert with
        | Some existing => dismiss existing (ToastListener.screen st)
        | None => ToastListener.screen st
        end |}, None).
Proof.
  intros Hc. unfold ToastListener.receive. simpl. rewrite Hc.
  destruct (ToastListener.alertToasts st !! Payload.id alert) as [h|] eqn:Hh; simpl.
  - reflexivity.
  - now rewrite delete_id.
Qed.

(** C5, as the code has it. On an event whose status is resolved,
    unsolved or false_alarm, the toast-handle listener removes the key
    from its shown set whatever the state, and calls [dismiss] exactly
    when a handle is stored for the key: when the alert was never shown
    there is no call and no error, and handling the event once more
    changes nothing. The listener of GlobalAlertListener.tsx never calls
    [dismiss]; on an update event whose status is solved or unsolved it
    removes the key from its shown set and leaves the screen alone. *)
Theorem closed_event_handling (db : Store) (alert : Payload.t) :
  (forall st : ToastListener.State,
     ToastListener.closed (default "active" (Payload.status alert)) = true ->
     let st' := ToastListener.handleAlert db (Some alert) st in
     ToastListener.shownAlerts st' =
       (ToastListener.shownAlerts st ∖ {[Payload.id alert]}) /\
     (Payload.id alert ∉ ToastListener.shownAlerts st') /\
     ToastListener.alertToasts st' =
       delete (Payload.id alert) (ToastListener.alertToasts st) /\
     effects (ToastListener.screen st') =
       (effects (ToastListener.screen st) ++
        match ToastListener.alertToasts st !! Payload.id alert with
        | Some existing => [Dismiss existing]
        | None => []
        end)%list /\
     ToastListener.handleAlert db (Some alert) st' = st') /\
  (forall (st : Listener.State) (isUpdate : bool),
     dismissals
       (effects (Listener.screen (Listener.handleAlert db (Some alert) isUpdate st))) =
     dismissals (effects (Listener.screen st))) /\
  (forall st : Listener.State,
     Listener.closed (Payload.status alert) = true ->
     Listener.handleAlert db (Some alert) true st =
     {| Listener.shownAlerts := Listener.shownAlerts st ∖ {[Payload.id alert]};
        Listener.screen := Listener.screen st |}).
Proof.
  split; [|split].
  - intros st Hc st'. subst st'. unfold ToastListener.handleAlert.
    rewrite (toast_receive_closed alert st Hc).
    split; [reflexivity|]. split.
    { simpl. intros [_ Hx]%elem_of_difference. apply Hx. now apply elem_of_singleton. }
    split; [reflexivity|]. split.
    + simpl. destruct (ToastListener.alertToasts st !! Payload.id alert);
        [reflexivity | now rewrite app_nil_r].
    + rewrite (toast_receive_closed alert _ Hc). simpl.
      rewrite lookup_delete_eq, delete_delete_eq.
      f_equal. apply set_eq. intros x.
      rewrite !elem_of_difference. tauto.
  - intros st isUpdate. apply listener_never_dismisses.
  - intros st Hc. unfold Listener.handleAlert, Listener.receive. now rewrite Hc.
Qed.

(** C6. An insert event for an alert that is live and not yet shown,
    delivered twice, produces one toast for the alert and one sound --
    whether the second delivery comes after the first has finished or
    while it is still waiting for the location name -- and a delivery for
    a key that is in the shown set changes nothing. This holds for both
    listeners. *)
Theorem insert_twice_shows_once (db : Store) (alert : Payload.t) :
  (forall st : Listener.State,
     Payload.id alert ∉ Listener.shownAlerts st ->
     Listener.closed (Payload.status alert) = false ->
     let st1 := Listener.handleAlert db (Some alert) false st in
     let st2 := Listener.handleAlert db (Some alert) false st1 in
     st2 = st1 /\
     effects (Listener.screen st2) =
       (effects (Listener.screen st) ++
        [Toast (count (Listener.screen st)) (Payload.id alert)
           (title_of (Payload.alert_type alert))
           (description_of (fetch_location db alert) (Payload.severity alert));
         Audio])%list /\
     shows (Payload.id alert) (effects (Listener.screen st2)) =
       S (shows (Payload.id alert) (effects (Listener.screen st))) /\
     sounds (effects (Listener.screen st2)) =
       S (sounds (effects (Listener.screen st))) /\
     exists waiting,
       Listener.receive (Some alert) false st = (waiting, Some alert) /\
       Listener.receive (Some alert) false waiting = (waiting, None) /\
       Listener.notify alert (fetch_location db alert) waiting = st1) /\
  (forall st : Listener.State,
     Payload.id alert ∈ Listener.shownAlerts st ->
     Listener.handleAlert db (Some alert) false st = st) /\
  (forall st : ToastListener.State,
     Payload.id alert ∉ ToastListener.shownAlerts st ->
     ToastListener.live (default "active" (Payload.status alert)) = true ->
     let st1 := ToastListener.handleAlert db (Some alert) st in
     let st2 := ToastListener.handleAlert db (Some alert) st1 in
     st2 = st1 /\
     effects (ToastListener.screen st2) =
       (effects (ToastListener.screen st) ++
        [Toast (count (ToastListener.screen st)) (Payload.id alert)
           (title_of (Payload.alert_type alert))
           (description_of (fetch_location db alert) (Payload.severity alert));
         Audio])%list /\
     shows (Payload.id alert) (effects (ToastListener.screen st2)) =
       S (shows (Payload.id alert) (effects (ToastListener.screen st))) /\
     sounds (effects (ToastListener.screen st2)) =
       S (sounds (effects (ToastListener.screen st))) /\
     exists waiting,
       ToastListener.receive (Some alert) st = (waiting, Some alert) /\
       ToastListener.receive (Some alert) waiting = (waiting, None) /\
       ToastListener.notify alert (fetch_location db alert) waiting = st1) /\
  (forall st : ToastListener.State,
     ToastListener.closed (default "active" (Payload.status alert)) = false ->
     Payload.id alert ∈ ToastListener.shownAlerts st ->
     ToastListener.handleAlert db (Some alert) st = st).
Proof.
  split; [|split; [|split]].
  - intros st Hnew Hopen st1 st2.
    assert (H1 : st1 =
                 Listener.notify alert (fetch_location db alert)
                   {| Listener.shownAlerts :=
                        {[Payload.id alert]} ∪ Listener.shownAlerts st;
                      Listener.screen := Listener.screen st |}).
    { subst st1. unfold Listener.handleAlert.
      now rewrite (listener_receive_new alert st Hnew Hopen). }
    assert (Hin : Payload.id alert ∈ Listener.shownAlerts st1).
    { rewrite H1. simpl. set_solver. }
    assert (H2 : st2 = st1).
    { subst st2. unfold Listener.handleAlert.
      now rewrite (listener_receive_shown alert st1 Hin). }
    assert (He : effects (Listener.screen st1) =
                 (effects (Listener.screen st) ++
                  [Toast (count (Listener.screen st)) (Payload.id alert)
                     (title_of (Payload.alert_type alert))
                     (description_of (fetch_location db alert)
                        (Payload.severity alert));
                   Audio])%list).
    { rewrite H1. simpl. now rewrite <- app_assoc. }
    rewrite H2. split; [reflexivity|]. split; [exact He|].
    rewrite He, shows_app, sounds_app. unfold shows, sounds. simpl.
    rewrite String.eqb_refl. simpl.
    split; [lia|]. split; [lia|].
    eexists. split; [apply (listener_receive_new alert st Hnew Hopen)|].
    split; [apply listener_receive_shown; simpl; set_solver|].
    now rewrite H1.
  - intros st Hin. unfold Listener.handleAlert.
    now rewrite (listener_receive_shown alert st Hin).
  - intros st Hnew Hlive st1 st2.
    assert (Hopen : ToastListener.closed (default "active" (Payload.status alert)) = false).
    { unfold ToastListener.live in Hlive. unfold ToastListener.closed.
      apply orb_true_iff in Hlive as [H|H]; apply String.eqb_eq in H; now rewrite H. }
    assert (H1 : st1 =
                 ToastListener.notify alert (fetch_location db alert)
                   {| ToastListener.shownAlerts :=
                        {[Payload.id alert]} ∪ ToastListener.shownAlerts st;
                      ToastListener.alertToasts := ToastListener.alertToasts st;
                      ToastListener.screen := ToastListener.screen st |}).
    { subst st1. unfold ToastListener.handleAlert.
      now rewrite (toast_receive_new alert st Hlive Hnew). }
    assert (Hin : Payload.id alert ∈ ToastListener.shownAlerts st1).
    { rewrite H1. simpl. set_solver. }
    assert (H2 : st2 = st1).
    { subst st2. unfold ToastListener.handleAlert.
      now rewrite (toast_receive_shown alert st1 Hopen Hin). }
    assert (He : effects (ToastListener.screen st1) =
                 (effects (ToastListener.screen st) ++
                  [Toast (count (ToastListener.screen st)) (Payload.id alert)
                     (title_of (Payload.alert_type alert))
                     (description_of (fetch_location db alert)
                        (Payload.severity alert));
                   Audio])%list).
    { rewrite H1. simpl. now rewrite <- app_assoc. }
    rewrite H2. split; [reflexivity|]. split; [exact He|].
    rewrite He, shows_app, sounds_app. unfold shows, sounds. simpl.
    rewrite String.eqb_refl. simpl.
    split; [lia|]. split; [lia|].
    eexists. split; [apply (toast_receive_new alert st Hlive Hnew)|].
    split; [apply toast_receive_shown; [exact Hopen | simpl; set_solver]|].
    now rewrite H1.
  - intros st Hopen Hin. unfold ToastListener.handleAlert.
    now rewrite (toast_receive_shown alert st Hopen Hin).
Qed.

Lemma closed_event_handling_witness :
  let db := Sample.store ∅ in
  let shown := ToastListener.handleAlert db (Some (Sample.event "active")) Sample.idle in
  let st' := ToastListener.handleAlert db (Some (Sample.event "resolved")) shown in
  ("a1" ∉ ToastListener.shownAlerts st') /\
  dismissals (effects (ToastListener.screen st')) = 1%nat /\
  ToastListener.handleAlert db (Some (Sample.event "resolved")) st' = st'.
Proof.
  intros db shown st'.
  destruct (proj1 (closed_event_handling db (Sample.event "resolved")) shown eq_refl)
    as (_ & Hout & _ & Heff & Hagain).
  split; [exact Hout|]. split; [|exact Hagain].
  subst st'. rewrite Heff. vm_compute. reflexivity.
Defined.

(** C5 as stated fails. A "resolved" event for an alert that was never
    shown makes the toast-handle listener call nothing at all; and in
    GlobalAlertListener.tsx an "unsolved" update for an alert whose toast
    is up removes the key but dismisses nothing. *)
Lemma closed_event_without_dismiss :
  let db := Sample.store ∅ in
  effects (ToastListener.screen
             (ToastListener.handleAlert db (Some (Sample.event "resolved"))
                Sample.idle)) = [] /\
  (let shown := Listener.handleAlert db (Some (Sample.event "active")) false
                  Sample.quiet in
   let st' := Listener.handleAlert db (Some (Sample.event "unsolved")) true shown in
   shows "a1" (effects (Listener.screen shown)) = 1%nat /\
   ("a1" ∉ Listener.shownAlerts st') /\
   effects (Listener.screen st') = effects (Listener.screen shown) /\
   dismissals (effects (Listener.screen st')) = 0%nat).
Proof.
  split; [reflexivity|]. split; [reflexivity|]. split; [|split; reflexivity].
  apply (bool_decide_unpack _). vm_compute. exact I.
Qed.

Lemma insert_twice_shows_once_witness :
  let db := Sample.store ∅ in
  let ev := Some (Sample.event "active") in
  (shows "a1"
     (effects (Listener.screen
                 (Listener.handleAlert db ev false
                    (Listener.handleAlert db ev false Sample.quiet)))) = 1%nat /\
   sounds
     (effects (Listener.screen
                 (Listener.handleAlert db ev false
                    (Listener.handleAlert db ev false Sample.quiet)))) = 1%nat) /\
  (shows "a1"
     (effects (ToastListener.screen
                 (ToastListener.handleAlert db ev
                    (ToastListener.handleAlert db ev Sample.idle)))) = 1%nat /\
   sounds
     (effects (ToastListener.screen
                 (ToastListener.handleAlert db ev
                    (ToastListener.handleAlert db ev Sample.idle)))) = 1%nat).
Proof.
  intros db ev. split.
  - destruct (proj1 (insert_twice_shows_once db (Sample.event "active")) Sample.quiet)
      as (_ & _ & Hshow & Hsound & _).
    + apply not_elem_of_empty.
    + reflexivity.
    + split; [exact Hshow | exact Hsound].
  - destruct (proj1 (proj2 (proj2 (insert_twice_shows_once db (Sample.event "active"))))
                Sample.idle)
      as (_ & _ & Hshow & Hsound & _).
    + apply not_elem_of_empty.
    + reflexivity.
    + split; [exact Hshow | exact Hsound].
Defined.

(** ** Worked scenarios *)

(** The window is closed at its lower end: a record stamped exactly 60
    minutes ago is still rewritten, one stamped a millisecond earlier is
    not. *)
Example window_boundary :
  let run rows :=
    body (fst (AlertManager.serve Sample.StringToNumber
                 (Sample.env (Sample.answers Sample.leaking)) Sample.evaluate_L
                 (Sample.store rows))) in
  (exists a, run {[ "a1" := Sample.raised 60 "active" ]} = AlertUpdated a /\ id a = "a1") /\
  (exists a,
     run {[ "a1" := {| location_id := "L"; alert_type := "fire";
                       severity := "critical"; status := "active";
                       sensor_values := Sample.burning;
                       timestamp := 40 * Sample.minute - 1;
                       resolved_at := None; resolved_by := None |} ]}
     = AlertCreated a /\ id a = "a2").
Proof. split; eexists; split; reflexivity. Qed.

(** Flame detected at a location without alerts: one record (fire,
    critical, active) is created, the listener shows one toast for it, and
    the event that marks it resolved dismisses that toast. *)
Example end_to_end :
  let db := Sample.store ∅ in
  let served :=
    AlertManager.serve Sample.StringToNumber
      (Sample.env (Sample.answers Sample.burning)) Sample.evaluate_L db in
  exists a,
    body (fst served) = AlertCreated a /\
    alert_type (row a) = "fire" /\ severity (row a) = "critical" /\
    status (row a) = "active" /\
    size (alerts (snd served)) = 1%nat /\
    let ev st := {| Payload.id := id a;
                    Payload.status := Some st;
                    Payload.alert_type := alert_type (row a);
                    Payload.severity := severity (row a);
                    Payload.location_id := location_id (row a) |} in
    let shown :=
      ToastListener.handleAlert (snd served) (Some (ev "active")) Sample.idle in
    let closed :=
      ToastListener.handleAlert (snd served) (Some (ev "resolved")) shown in
    effects (ToastListener.screen closed) =
      [Toast 0 (id a) (title_of "fire") (description_of (Some Sample.lab) "critical");
       Audio; Dismiss 0] /\
    ToastListener.shownAlerts closed = ∅.
Proof.
  intros db served. eexists.
  split; [reflexivity|]. split; [reflexivity|]. split; [reflexivity|].
  split; [reflexivity|]. split; [reflexivity|].
  split; [reflexivity|].
  apply set_eq. intros x. vm_compute. tauto.
Qed.

(** * Further properties of the edge function *)

Lemma set_alerts_same (st : Store) : set_alerts st (alerts st) = st.
Proof. now destruct st. Qed.

(** What the lookup returns is a stored row of the location, inside the
    window. *)
Lemma select_recent_alert_sound (st : Store) (locationId : string) (t : Z)
    (a : Alert) :
  reply_data (select_recent_alert st locationId t) = Some a ->
  alerts st !! id a = Some (row a) /\
  location_id (row a) = locationId /\ t <= timestamp (row a).
Proof.
  unfold select_recent_alert.
  destruct (most_recent _) as [b|] eqn:Hb; [|discriminate].
  intros [= <-]. apply most_recent_Some in Hb as [Hin _].
  apply filter_In in Hin as [Hin Hrec].
  apply in_alert_rows in Hin. apply recent_for_spec in Hrec. tauto.
Qed.

Lemma substring_all (s : string) : substring 0 (String.length s) s = s.
Proof. induction s as [|c s IH]; simpl; [reflexivity | now rewrite IH]. Qed.

Lemma substring_none (s : string) : substring 0 0 s = "".
Proof. now destruct s. Qed.

Lemma substring_skip (a b : string) (m : nat) :
  substring (String.length a) m (a ++ b) = substring 0 m b.
Proof.
  induction a as [|c a IH].
  - reflexivity.
  - change (String c a ++ b) with (String c (a ++ b)). simpl. exact IH.
Qed.

Lemma length_append (a b : string) :
  String.length (a ++ b) = (String.length a + String.length b)%nat.
Proof.
  induction a as [|c a IH]; [reflexivity|].
  change (String c a ++ b) with (String c (a ++ b)). simpl. now rewrite IH.
Qed.

Lemma index_Bearer (token : string) :
  index 0 "Bearer " ("Bearer " ++ token) = Some 0%nat.
Proof. destruct token; reflexivity. Qed.

(** Stripping the scheme from ["Bearer " ++ token] gives the token back. *)
Lemma replace_first_Bearer (token : string) :
  replace_first "Bearer " "" ("Bearer " ++ token) = token.
Proof.
  unfold replace_first. rewrite index_Bearer.
  rewrite substring_none, length_append.
  change (0 + String.length "Bearer ")%nat with (String.length "Bearer ").
  rewrite substring_skip.
  replace (String.length "Bearer " + String.length token - String.length "Bearer ")%nat
    with (String.length token) by lia.
  rewrite substring_all. reflexivity.
Qed.

Section ManagerFacts.

Context (StringToNumber : string -> JS.number).

Local Abbreviation classify := (AlertManager.classify StringToNumber).
Local Abbreviation create_or_update := (AlertManager.create_or_update StringToNumber).
Local Abbreviation evaluate := (AlertManager.evaluate StringToNumber).
Local Abbreviation serve := (AlertManager.serve StringToNumber).

(** How [create_or_update] can end, and what it leaves in the store. *)
Lemma create_or_update_cases (env : Env) (locationId : string) (sensors : Sensors)
    (st : Store) :
  (exists message, create_or_update env locationId sensors st = (Throw message, st)) \/
  (classify sensors = None /\
   create_or_update env locationId sensors st =
   (Return (ok (Message "All sensors within normal range" (Some sensors))), st)) \/
  (exists ty sev key old,
     classify sensors = Some (ty, sev) /\
     alerts st !! key = Some old /\ location_id old = locationId /\
     date_now env - 60 * 60 * 1000 <= timestamp old /\
     create_or_update env locationId sensors st =
     (Return (ok (AlertUpdated
                    {| id := key;
                       row := redetected ty sev sensors (new_Date env) old |})),
      set_alerts st (<[key := redetected ty sev sensors (new_Date env) old]>
                       (alerts st)))) \/
  (exists ty sev,
     classify sensors = Some (ty, sev) /\
     alerts st !! default_id env = None /\
     create_or_update env locationId sensors st =
     (Return (ok (AlertCreated
                    {| id := default_id env;
                       row := detected locationId ty sev sensors (new_Date env) |})),
      set_alerts st (<[default_id env :=
                         detected locationId ty sev sensors (new_Date env)]>
                       (alerts st)))).
Proof.
  unfold AlertManager.create_or_update.
  destruct (classify sensors) as [[ty sev]|] eqn:Hc; [|right; left; now split].
  destruct (reply_data _) as [a|] eqn:Ha.
  - apply select_recent_alert_sound in Ha as (Hin & Hloc & Hts).
    unfold update_alert. rewrite Hin. right. right. left.
    exists ty, sev, (id a), (row a). now repeat split.
  - unfold insert_alert.
    destruct (alerts st !! default_id env) as [taken|] eqn:Hid.
    + left. now eexists.
    + right. right. right. exists ty, sev. now repeat split.
Qed.

(** How the [evaluate] action can end. *)
Lemma evaluate_cases (env : Env) (locationId : string) (st : Store) :
  (exists message, evaluate env locationId st = (Throw message, st)) \/
  evaluate env locationId st =
    (Return (ok (Message "No sensor data available" None)), st) \/
  (exists location sensors,
     locations st !! locationId = Some location /\
     no_sensor_data (invoke_thingspeak env location) = false /\
     sensorData (invoke_thingspeak env location) ≫= data = Some sensors /\
     evaluate env locationId st = create_or_update env locationId sensors st).
Proof.
  unfold AlertManager.evaluate, select_location.
  destruct (locations st !! locationId) as [location|] eqn:Hl; [|left; now eexists].
  destruct (no_sensor_data _) eqn:Hn; [right; now left|].
  destruct (_ ≫= data) as [sensors|] eqn:Hs; [|left; now eexists].
  right. right. now exists location, sensors.
Qed.

(** How the [update] action can end. *)
Lemma update_cases (env : Env) (req : Request) (st : Store) :
  (exists message, AlertManager.update env req st = (Throw message, st)) \/
  (exists user,
     AlertManager.update env req st =
     (Return (ok (Message "Alert updated successfully" None)),
      set_alerts st
        (alter (with_status (new_status req) (new_Date env) user) (alertId req)
           (alerts st)))).
Proof.
  unfold AlertManager.update.
  destruct (authorization req) as [h|]; [|left; now eexists].
  destruct (String.eqb h ""); [left; now eexists|].
  destruct (getUser env _) as [user|]; [|left; now eexists].
  right. now exists user.
Qed.

(** X1. The reply is a 200 or a 400, it is a 400 exactly when its body is
    [{ success: false, error }], and a request answered with a 400 has
    changed nothing in the store. *)
Theorem serve_failure_keeps_store (env : Env) (req : Request) (st : Store) :
  (http_status (fst (serve env req st)) = 200 \/
   http_status (fst (serve env req st)) = 400) /\
  (http_status (fst (serve env req st)) = 400 <->
   exists message, body (fst (serve env req st)) = Failed message) /\
  (http_status (fst (serve env req st)) = 400 -> snd (serve env req st) = st).
Proof.
  unfold AlertManager.serve.
  destruct (String.eqb (method req) "OPTIONS").
  { simpl. split; [now left|]. split; [|discriminate].
    split; [discriminate | intros [m Hm]; discriminate]. }
  assert (Hcases :
    forall o : Outcome * Store,
      (exists message, o = (Throw message, st)) \/
      (exists b st', o = (Return (ok b), st') /\ forall m, b <> Failed m) ->
      (http_status (fst (reply_of o)) = 200 \/ http_status (fst (reply_of o)) = 400) /\
      (http_status (fst (reply_of o)) = 400 <->
       exists message, body (fst (reply_of o)) = Failed message) /\
      (http_status (fst (reply_of o)) = 400 -> snd (reply_of o) = st)).
  { intros o [[m ->]|(b & st' & -> & Hb)]; simpl.
    - split; [now right|]. split; [|reflexivity]. split; [now exists m | reflexivity].
    - split; [now left|]. split; [|discriminate].
      split; [discriminate | intros [m Hm]; now apply Hb in Hm]. }
  apply Hcases.
  destruct (String.eqb (action req) "evaluate").
  - destruct (evaluate_cases env (locationId req) st)
      as [[m ->]|[->|(location & sensors & _ & _ & _ & ->)]].
    + left. now exists m.
    + right. eexists _, _. split; [reflexivity | discriminate].
    + destruct (create_or_update_cases env (locationId req) sensors st)
        as [[m ->]|[[_ ->]|[(ty & sev & key & old & _ & _ & _ & _ & ->)
                           |(ty & sev & _ & _ & ->)]]].
      * left. now exists m.
      * right. eexists _, _. split; [reflexivity | discriminate].
      * right. eexists _, _. split; [reflexivity | discriminate].
      * right. eexists _, _. split; [reflexivity | discriminate].
  - destruct (String.eqb (action req) "update").
    + destruct (update_cases env req st) as [[m ->]|[user ->]].
      * left. now exists m.
      * right. eexists _, _. split; [reflexivity | discriminate].
    + left. now eexists.
Qed.

(** X2. A status update is refused before anything is written: without an
    [Authorization] header (or with an empty one) the reply is 400 "No
    authorization header"; with a token that [getUser] does not resolve it
    is 400 "Unauthorized". *)
Theorem update_requires_identity (env : Env) (req : Request) (st : Store) :
  method req <> "OPTIONS" -> action req = "update" ->
  ((authorization req = None \/ authorization req = Some "") ->
   serve env req st =
   ({| http_status := 400; body := Failed "No authorization header" |}, st)) /\
  (forall authHeader,
     authorization req = Some authHeader -> authHeader <> "" ->
     getUser env (replace_first "Bearer " "" authHeader) = None ->
     serve env req st = ({| http_status := 400; body := Failed "Unauthorized" |}, st)).
Proof.
  intros Hm Ha. unfold AlertManager.serve, AlertManager.update.
  apply String.eqb_neq in Hm. rewrite Hm, Ha. simpl. split.
  - intros [-> | ->]; reflexivity.
  - intros h -> Hne Hu. apply String.eqb_neq in Hne. now rewrite Hne, Hu.
Qed.

(** X3. An authenticated update of an alert id that is not in the table is
    answered "Alert updated successfully" and changes nothing. *)
Theorem update_unknown_alert (env : Env) (req : Request) (st : Store)
    (user : string) :
  update_request env req user ->
  alerts st !! alertId req = None ->
  serve env req st = (ok (Message "Alert updated successfully" None), st).
Proof.
  intros (Hm & Ha & h & Hh & Hne & Hu) Hnone.
  unfold AlertManager.serve, AlertManager.update.
  apply String.eqb_neq in Hm. apply String.eqb_neq in Hne.
  rewrite Hm, Ha, Hh, Hne, Hu. simpl. unfold update_alert_quiet. simpl.
  rewrite alter_id; [now rewrite set_alerts_same|].
  intros x Hx. rewrite Hnone in Hx. discriminate.
Qed.

(** X4. When no threshold check fires, the action replies "All sensors
    within normal range" with the readings and leaves every alert as it
    is: an alert that is open stays open. *)
Theorem evaluate_nominal (env : Env) (req : Request) (st : Store)
    (location : Location) (sensors : Sensors) :
  evaluate_request req ->
  locations st !! locationId req = Some location ->
  telemetry env location sensors ->
  classify sensors = None ->
  serve env req st =
  (ok (Message "All sensors within normal range" (Some sensors)), st).
Proof.
  intros [Hm Ha] Hl Ht Hc. unfold AlertManager.serve.
  apply String.eqb_neq in Hm. rewrite Hm, Ha. simpl.
  rewrite (evaluate_telemetry _ _ _ _ _ _ Hl Ht).
  unfold AlertManager.create_or_update. now rewrite Hc.
Qed.

End ManagerFacts.

Lemma map_size_alter_gmap (f : AlertRow -> AlertRow) (k : string)
    (m : gmap string AlertRow) :
  size (alter f k m) = size m.
Proof.
  rewrite <- !(size_dom (D := gset string)). now rewrite dom_alter_L.
Qed.

Section ManagerInvariants.

Context (StringToNumber : string -> JS.number).

Local Abbreviation classify := (AlertManager.classify StringToNumber).
Local Abbreviation create_or_update := (AlertManager.create_or_update StringToNumber).
Local Abbreviation evaluate := (AlertManager.evaluate StringToNumber).
Local Abbreviation serve := (AlertManager.serve StringToNumber).

(** With a row of the location in the window, [create_or_update] rewrites
    a stored row of the location. *)
Lemma create_or_update_recent (env : Env) (locationId : string) (sensors : Sensors)
    (st : Store) (ty sev : string) (k : string) (r : AlertRow) :
  classify sensors = Some (ty, sev) ->
  alerts st !! k = Some r -> location_id r = locationId ->
  date_now env - 60 * 60 * 1000 <= timestamp r ->
  exists key old,
    alerts st !! key = Some old /\ location_id old = locationId /\
    create_or_update env locationId sensors st =
    (Return (ok (AlertUpdated
                   {| id := key; row := redetected ty sev sensors (new_Date env) old |})),
     set_alerts st (<[key := redetected ty sev sensors (new_Date env) old]>
                      (alerts st))).
Proof.
  intros Hc Hk Hloc Hts. unfold AlertManager.create_or_update. rewrite Hc.
  destruct (select_recent_alert_some st locationId _ k r Hk Hloc Hts)
    as (a & Ha & Hin & Haloc & _).
  rewrite Ha. unfold update_alert. rewrite Hin.
  exists (id a), (row a). now repeat split.
Qed.

(** The alert in the reply of an [evaluate] request is in the store, at
    the requested location, stamped with the time of the write. *)
Lemma serve_evaluate_alert (env : Env) (req : Request) (st : Store) (a : Alert) :
  evaluate_request req ->
  body (fst (serve env req st)) = AlertCreated a \/
  body (fst (serve env req st)) = AlertUpdated a ->
  alerts (snd (serve env req st)) !! id a = Some (row a) /\
  location_id (row a) = locationId req /\
  timestamp (row a) = new_Date env /\
  locations (snd (serve env req st)) = locations st.
Proof.
  intros Hreq. rewrite serve_evaluate by assumption.
  destruct (evaluate_cases StringToNumber env (locationId req) st)
    as [[m ->]|[->|(location & sensors & _ & _ & _ & ->)]];
    try (simpl; intros [H|H]; discriminate).
  destruct (create_or_update_cases StringToNumber env (locationId req) sensors st)
    as [[m ->]|[[_ ->]|[(ty & sev & key & old & _ & Hold & Hloc & _ & ->)
                       |(ty & sev & _ & _ & ->)]]];
    try (simpl; intros [H|H]; discriminate).
  - simpl. intros [H|H]; [discriminate|]. injection H as <-. simpl.
    rewrite lookup_insert_eq. now repeat split.
  - simpl. intros [H|H]; [|discriminate]. injection H as <-. simpl.
    rewrite lookup_insert_eq. now repeat split.
Qed.

(** X5. Two evaluations in a row give one record: once an evaluation has
    created or rewritten an alert, the next evaluation of that location
    that finds a threshold exceeded, made no later than 60 minutes after
    that write, rewrites a record and inserts none. *)
Theorem evaluate_again_updates (env1 env2 : Env) (req : Request) (st : Store)
    (a : Alert) (location : Location) (sensors : Sensors) (ty sev : string) :
  evaluate_request req ->
  body (fst (serve env1 req st)) = AlertCreated a \/
  body (fst (serve env1 req st)) = AlertUpdated a ->
  locations st !! locationId req = Some location ->
  telemetry env2 location sensors ->
  classify sensors = Some (ty, sev) ->
  date_now env2 - 60 * 60 * 1000 <= new_Date env1 ->
  let st1 := snd (serve env1 req st) in
  let st2 := snd (serve env2 req st1) in
  exists b,
    fst (serve env2 req st1) = ok (AlertUpdated b) /\
    is_Some (alerts st1 !! id b) /\
    location_id (row b) = locationId req /\
    timestamp (row b) = new_Date env2 /\
    alerts st2 = <[id b := row b]> (alerts st1) /\
    size (alerts st2) = size (alerts st1) /\
    forall loc, records_of loc st2 = records_of loc st1.
Proof.
  intros Hreq Hfirst Hl Ht Hc Hwin st1 st2.
  destruct (serve_evaluate_alert env1 req st a Hreq Hfirst)
    as (Hin & Hloc & Hts & Hlocs).
  fold st1 in Hin, Hlocs.
  assert (Hl1 : locations st1 !! locationId req = Some location)
    by now rewrite Hlocs.
  assert (Hw : date_now env2 - 60 * 60 * 1000 <= timestamp (row a))
    by now rewrite Hts.
  destruct (create_or_update_recent env2 (locationId req) sensors st1 ty sev
              (id a) (row a) Hc Hin Hloc Hw)
    as (key & old & Hold & Holdloc & Hrun).
  subst st2. rewrite serve_evaluate by assumption.
  rewrite (evaluate_telemetry _ _ _ _ _ _ Hl1 Ht), Hrun. simpl.
  eexists. split; [reflexivity|]. simpl.
  split; [now exists old|]. split; [exact Holdloc|].
  split; [reflexivity|]. split; [reflexivity|]. split.
  - apply map_size_insert_Some. now exists old.
  - intros loc. now apply (records_of_rewrite st1 key old).
Qed.

(** X6. No request deletes an alert, moves it to another location or
    touches the locations table, and a request adds at most one alert. *)
Theorem serve_keeps_records (env : Env) (req : Request) (st : Store) :
  let st' := snd (serve env req st) in
  locations st' = locations st /\
  (forall k r, alerts st !! k = Some r ->
     exists r', alerts st' !! k = Some r' /\ location_id r' = location_id r) /\
  (size (alerts st') <= S (size (alerts st)))%nat.
Proof.
  assert (Hsame : locations st = locations st /\
    (forall k r, alerts st !! k = Some r ->
       exists r', alerts st !! k = Some r' /\ location_id r' = location_id r) /\
    (size (alerts st) <= S (size (alerts st)))%nat).
  { split; [reflexivity|]. split; [|lia]. intros k r Hk. now exists r. }
  unfold AlertManager.serve.
  destruct (String.eqb (method req) "OPTIONS"); [exact Hsame|].
  destruct (String.eqb (action req) "evaluate").
  - destruct (evaluate_cases StringToNumber env (locationId req) st)
      as [[m ->]|[->|(location & sensors & _ & _ & _ & ->)]];
      [exact Hsame | exact Hsame |].
    destruct (create_or_update_cases StringToNumber env (locationId req) sensors st)
      as [[m ->]|[[_ ->]|[(ty & sev & key & old & _ & Hold & _ & _ & ->)
                         |(ty & sev & _ & Hfresh & ->)]]];
      [exact Hsame | exact Hsame | |]; simpl.
    + split; [reflexivity|]. split.
      * intros k r Hk. destruct (decide (k = key)) as [->|Hne].
        -- rewrite lookup_insert_eq. eexists. split; [reflexivity|].
           simpl. congruence.
        -- rewrite lookup_insert_ne by congruence. now exists r.
      * rewrite map_size_insert_Some by (now exists old). lia.
    + split; [reflexivity|]. split.
      * intros k r Hk. destruct (decide (k = default_id env)) as [->|Hne].
        -- congruence.
        -- rewrite lookup_insert_ne by congruence. now exists r.
      * now rewrite map_size_insert_None.
  - destruct (String.eqb (action req) "update"); [|exact Hsame].
    destruct (update_cases env req st) as [[m ->]|[user ->]]; [exact Hsame|].
    simpl. split; [reflexivity|]. split.
    + intros k r Hk. destruct (decide (k = alertId req)) as [->|Hne].
      * rewrite lookup_alter_eq, Hk. simpl. now eexists.
      * rewrite lookup_alter_ne by congruence. now exists r.
    + rewrite map_size_alter_gmap. lia.
Qed.

(** X7. The caller recorded by a status update is the user the bearer
    token belongs to: for a header ["Bearer " ++ token], [getUser] is
    asked about [token] itself, and its user is written to [resolved_by]
    of the alert that is closed. *)
Theorem bearer_token_attributes_update (env : Env) (req : Request) (st : Store)
    (token user : string) (old : AlertRow) :
  method req <> "OPTIONS" -> action req = "update" ->
  authorization req = Some ("Bearer " ++ token) ->
  getUser env token = Some user ->
  alerts st !! alertId req = Some old ->
  new_status req <> "active" ->
  exists new,
    fst (serve env req st) = ok (Message "Alert updated successfully" None) /\
    alerts (snd (serve env req st)) !! alertId req = Some new /\
    status new = new_status req /\
    resolved_by new = Some user /\ resolved_at new = Some (new_Date env).
Proof.
  intros Hm Ha Hh Hu Hold Hst.
  unfold AlertManager.serve, AlertManager.update.
  apply String.eqb_neq in Hm. rewrite Hm, Ha, Hh. simpl.
  replace (String.eqb ("Bearer " ++ token) "") with false by now destruct token.
  rewrite replace_first_Bearer, Hu. simpl.
  rewrite lookup_alter_eq, Hold. simpl.
  apply String.eqb_neq in Hst.
  eexists. split; [reflexivity|]. split; [reflexivity|]. simpl.
  rewrite Hst. now repeat split.
Qed.

(** X8. The classification depends on the flame, gas and temperature
    fields only: humidity, the motion flag and the capture time play no
    part. *)
Theorem classify_ignores_motion (s1 s2 : Sensors) :
  flame s1 = flame s2 -> gas s1 = gas s2 -> temperature s1 = temperature s2 ->
  classify s1 = classify s2.
Proof.
  intros Hf Hg Ht. rewrite !classify_cases. now rewrite Hf, Hg, Ht.
Qed.

(** X9. A field that is missing, [null] or a boolean never exceeds a
    threshold: with such gas and temperature fields only a flame raises
    an alert. *)
Theorem missing_fields_do_not_trigger (sensors : Sensors) :
  (forall v, v = gas sensors \/ v = temperature sensors ->
             v = JS.Undefined \/ v = JS.Null \/ exists b, v = JS.Boolean b) ->
  classify sensors =
    if JS.strict_eq_str (flame sensors) "FLAME"
    then Some ("fire", "critical") else None.
Proof.
  intros Hv. rewrite classify_cases.
  assert (Hlow : forall v k,
            (v = JS.Undefined \/ v = JS.Null \/ exists b, v = JS.Boolean b) ->
            1 < k -> JS.gt_literal StringToNumber v k = false).
  { intros v k [->|[->|[[|] ->]]] Hk; try reflexivity;
      unfold JS.gt_literal, JS.gt, JS.lt, JS.ToNumber, JS.of_Z;
      apply negb_false_iff, Qle_bool_iff;
      unfold Qle, inject_Z; simpl; lia. }
  rewrite (Hlow (gas sensors) 400), (Hlow (temperature sensors) 35);
    [reflexivity | auto | lia | auto | lia].
Qed.

End ManagerInvariants.

(** * Further properties of the listeners *)

Lemma on_screen_snoc (l : list Effect) (e : Effect) :
  on_screen (l ++ [e]) = screen_step (on_screen l) e.
Proof. unfold on_screen. now rewrite fold_left_app. Qed.

Lemma orderly_app (m : gmap nat string) (l l' : list Effect) :
  orderly m (l ++ l') <-> orderly m l /\ orderly (fold_left screen_step l m) l'.
Proof.
  revert m. induction l as [|e l IH]; intros m; simpl; [tauto|].
  destruct e as [h a t d|h|]; simpl; rewrite ?IH; tauto.
Qed.

Lemma toasts_app (l l' : list Effect) :
  toasts (l ++ l') = (toasts l + toasts l')%nat.
Proof. unfold toasts. now rewrite List.filter_app, List.length_app. Qed.

(** ** The toast-handle listener, over any run *)

(** What one call does, by cases. *)
Lemma toast_handleAlert_cases (db : Store) (new : option Payload.t)
    (st : ToastListener.State) :
  ToastListener.handleAlert db new st = st \/
  (exists alert,
     new = Some alert /\
     ToastListener.closed (default "active" (Payload.status alert)) = true /\
     ToastListener.handleAlert db new st =
     {| ToastListener.shownAlerts :=
          ToastListener.shownAlerts st ∖ {[Payload.id alert]};
        ToastListener.alertToasts :=
          delete (Payload.id alert) (ToastListener.alertToasts st);
        ToastListener.screen :=
          match ToastListener.alertToasts st !! Payload.id alert with
          | Some existing => dismiss existing (ToastListener.screen st)
          | None => ToastListener.screen st
          end |}) \/
  (exists alert,
     new = Some alert /\
     (Payload.id alert ∉ ToastListener.shownAlerts st) /\
     ToastListener.handleAlert db new st =
     ToastListener.notify alert (fetch_location db alert)
       {| ToastListener.shownAlerts :=
            {[Payload.id alert]} ∪ ToastListener.shownAlerts st;
          ToastListener.alertToasts := ToastListener.alertToasts st;
          ToastListener.screen := ToastListener.screen st |}).
Proof.
  destruct new as [alert|]; [|now left].
  destruct (ToastListener.closed (default "active" (Payload.status alert))) eqn:Hc.
  - right. left. exists alert. split; [reflexivity|]. split; [exact Hc|].
    unfold ToastListener.handleAlert. now rewrite (toast_receive_closed alert st Hc).
  - destruct (decide (Payload.id alert ∈ ToastListener.shownAlerts st)) as [Hin|Hout].
    + left. unfold ToastListener.handleAlert.
      now rewrite (toast_receive_shown alert st Hc Hin).
    + destruct (ToastListener.live (default "active" (Payload.status alert))) eqn:Hl.
      * right. right. exists alert. split; [reflexivity|]. split; [exact Hout|].
        unfold ToastListener.handleAlert.
        now rewrite (toast_receive_new alert st Hl Hout).
      * left. unfold ToastListener.handleAlert, ToastListener.receive.
        simpl. now rewrite Hc, Hl.
Qed.

Lemma toast_listener_inv_idle : toast_listener_inv Sample.idle.
Proof.
  split; [|split].
  - intros h k. unfold on_screen. simpl. rewrite !lookup_empty. split; discriminate.
  - intros k h. simpl. rewrite lookup_empty. discriminate.
  - intros k [h Hk]. simpl in Hk. rewrite lookup_empty in Hk. discriminate.
Qed.

Lemma toast_listener_inv_step (db : Store) (new : option Payload.t)
    (st : ToastListener.State) :
  toast_listener_inv st ->
  toast_listener_inv (ToastListener.handleAlert db new st).
Proof.
  intros (Hscr & Hcnt & Hshown).
  destruct (toast_handleAlert_cases db new st)
    as [->|[(alert & _ & _ & ->)|(alert & _ & Hout & ->)]].
  - split; [|split]; assumption.
  - destruct (ToastListener.alertToasts st !! Payload.id alert) as [h|] eqn:Hk.
    + split; [|split]; simpl.
      * intros h' k'. rewrite on_screen_snoc. simpl.
        rewrite lookup_delete_Some, (lookup_delete_Some (ToastListener.alertToasts st)).
        rewrite Hscr. split.
        -- intros [Hne Hk']. split; [|exact Hk']. intros <-. congruence.
        -- intros [Hne Hk']. split; [|exact Hk']. intros <-.
           apply Hscr in Hk'. apply Hscr in Hk. congruence.
      * intros k' h'. rewrite lookup_delete_Some. intros [_ Hk']. eauto.
      * intros k' [h' Hk']. apply lookup_delete_Some in Hk' as [Hne Hk'].
        apply elem_of_difference. split; [eauto|].
        rewrite elem_of_singleton. congruence.
    + split; [|split]; simpl.
      * intros h' k'. rewrite Hscr, lookup_delete_Some. split; [|tauto].
        intros Hk'. split; [congruence | exact Hk'].
      * intros k' h'. rewrite lookup_delete_Some. intros [_ Hk']. eauto.
      * intros k' [h' Hk']. apply lookup_delete_Some in Hk' as [Hne Hk'].
        apply elem_of_difference. split; [eauto|].
        rewrite elem_of_singleton. congruence.
  - assert (Hnone : ToastListener.alertToasts st !! Payload.id alert = None).
    { destruct (ToastListener.alertToasts st !! Payload.id alert) as [h|] eqn:Hk;
        [|reflexivity].
      exfalso. apply Hout, Hshown. now exists h. }
    split; [|split]; simpl.
    + intros h' k'. rewrite on_screen_snoc. simpl. rewrite on_screen_snoc. simpl.
      rewrite lookup_insert_Some, (lookup_insert_Some (ToastListener.alertToasts st)).
      rewrite Hscr. split.
      * intros [[<- <-]|[Hne Hk']]; [now left|].
        right. split; [|exact Hk']. intros <-. congruence.
      * intros [[<- <-]|[Hne Hk']]; [now left|].
        right. split; [|exact Hk']. intros <-. apply Hcnt in Hk'. lia.
    + intros k' h'. rewrite lookup_insert_Some.
      intros [[_ <-]|[_ Hk']]; [lia|]. apply Hcnt in Hk'. lia.
    + intros k' [h' Hk']. apply lookup_insert_Some in Hk' as [[<- _]|[_ Hk']].
      * apply elem_of_union. left. now apply elem_of_singleton.
      * apply elem_of_union. right. apply Hshown. now exists h'.
Qed.

Lemma toast_listener_inv_run (db : Store) (events : list (option Payload.t))
    (st : ToastListener.State) :
  toast_listener_inv st -> toast_listener_inv (toast_listener_run db events st).
Proof.
  revert st. induction events as [|e events IH]; intros st Hinv; [exact Hinv|].
  simpl. apply IH. now apply toast_listener_inv_step.
Qed.

(** X10. Whatever events the toast-handle listener has handled since it
    was mounted (each call run to its end), the toasts that are up are
    exactly those whose handle it keeps: no alert has two toasts up at
    once, and every alert with a toast up is in the shown set. *)
Theorem toast_listener_one_toast_per_alert (db : Store)
    (events : list (option Payload.t)) :
  let st := toast_listener_run db events Sample.idle in
  (forall h k, on_screen (effects (ToastListener.screen st)) !! h = Some k <->
               ToastListener.alertToasts st !! k = Some h) /\
  (forall h h' k,
     on_screen (effects (ToastListener.screen st)) !! h = Some k ->
     on_screen (effects (ToastListener.screen st)) !! h' = Some k -> h = h') /\
  (forall h k, on_screen (effects (ToastListener.screen st)) !! h = Some k ->
               k ∈ ToastListener.shownAlerts st).
Proof.
  intros st.
  destruct (toast_listener_inv_run db events Sample.idle toast_listener_inv_idle)
    as (Hscr & Hcnt & Hshown).
  fold st in Hscr, Hcnt, Hshown.
  split; [exact Hscr|]. split.
  - intros h h' k Hh Hh'. apply Hscr in Hh, Hh'. congruence.
  - intros h k Hh. apply Hshown. exists h. now apply Hscr.
Qed.

(** X11. Once the toast-handle listener has handled an event whose status
    is resolved, unsolved or false_alarm, no toast for that alert is up,
    whatever happened before. *)
Theorem toast_listener_closed_clears_screen (db : Store)
    (events : list (option Payload.t)) (alert : Payload.t) :
  ToastListener.closed (default "active" (Payload.status alert)) = true ->
  let st := toast_listener_run db (events ++ [Some alert]) Sample.idle in
  (forall h, on_screen (effects (ToastListener.screen st)) !! h
             <> Some (Payload.id alert)) /\
  Payload.id alert ∉ ToastListener.shownAlerts st.
Proof.
  intros Hc st.
  pose proof (toast_listener_inv_run db (events ++ [Some alert]) Sample.idle
                toast_listener_inv_idle) as (Hscr & _ & _).
  fold st in Hscr.
  assert (Hst : st = ToastListener.handleAlert db (Some alert)
                       (toast_listener_run db events Sample.idle)).
  { subst st. unfold toast_listener_run. now rewrite fold_left_app. }
  split.
  - intros h Hh. apply Hscr in Hh. rewrite Hst in Hh.
    unfold ToastListener.handleAlert in Hh.
    rewrite (toast_receive_closed alert _ Hc) in Hh. simpl in Hh.
    rewrite lookup_delete_eq in Hh. discriminate.
  - rewrite Hst. unfold ToastListener.handleAlert.
    rewrite (toast_receive_closed alert _ Hc). simpl.
    intros [_ Hx]%elem_of_difference. apply Hx. now apply elem_of_singleton.
Qed.

Lemma toast_listener_orderly_step (db : Store) (new : option Payload.t)
    (st : ToastListener.State) :
  toast_listener_inv st ->
  orderly ∅ (effects (ToastListener.screen st)) ->
  orderly ∅ (effects (ToastListener.screen (ToastListener.handleAlert db new st))).
Proof.
  intros (Hscr & Hcnt & Hshown) Hord.
  destruct (toast_handleAlert_cases db new st)
    as [->|[(alert & _ & _ & ->)|(alert & _ & Hout & ->)]]; [exact Hord| |]; simpl.
  - destruct (ToastListener.alertToasts st !! Payload.id alert) as [h|] eqn:Hk;
      [|exact Hord].
    simpl. apply orderly_app. split; [exact Hord|]. simpl.
    split; [|exact I]. exists (Payload.id alert). now apply Hscr.
  - apply orderly_app. split; [|exact I].
    apply orderly_app. split; [exact Hord|]. simpl. split; [|exact I].
    fold (on_screen (effects (ToastListener.screen st))).
    destruct (on_screen _ !! _) as [k|] eqn:Hk; [|reflexivity].
    apply Hscr, Hcnt in Hk. lia.
Qed.

(** X12. The trace of the toast-handle listener is orderly: every toast
    gets a handle that is not in use, and every [dismiss] is for a toast
    that is up -- none is dismissed twice, none before it was shown. *)
Theorem toast_listener_trace_orderly (db : Store)
    (events : list (option Payload.t)) :
  orderly ∅ (effects (ToastListener.screen (toast_listener_run db events Sample.idle))).
Proof.
  assert (H : forall st,
            toast_listener_inv st ->
            orderly ∅ (effects (ToastListener.screen st)) ->
            orderly ∅ (effects (ToastListener.screen (toast_listener_run db events st)))).
  { induction events as [|e events IH]; intros st Hinv Hord; [exact Hord|].
    simpl. apply IH.
    - now apply toast_listener_inv_step.
    - now apply toast_listener_orderly_step. }
  apply H; [apply toast_listener_inv_idle | exact I].
Qed.

(** X13. The toast-handle listener can show a toast for an alert that is
    already closed: when the closing event arrives while the call for the
    live event still waits for the location name, the closing call finds
    no handle to dismiss, and the first call then puts its toast up,
    stores the handle and leaves the key out of the shown set. *)
Theorem toast_listener_closed_while_waiting (db : Store) (st : ToastListener.State)
    (alert closing : Payload.t) :
  ToastListener.live (default "active" (Payload.status alert)) = true ->
  Payload.id alert ∉ ToastListener.shownAlerts st ->
  ToastListener.alertToasts st !! Payload.id alert = None ->
  Payload.id closing = Payload.id alert ->
  ToastListener.closed (default "active" (Payload.status closing)) = true ->
  exists waiting closed_,
    ToastListener.receive (Some alert) st = (waiting, Some alert) /\
    ToastListener.receive (Some closing) waiting = (closed_, None) /\
    effects (ToastListener.screen closed_) = effects (ToastListener.screen st) /\
    let st' := ToastListener.notify alert (fetch_location db alert) closed_ in
    on_screen (effects (ToastListener.screen st')) !! count (ToastListener.screen st)
      = Some (Payload.id alert) /\
    ToastListener.alertToasts st' !! Payload.id alert
      = Some (count (ToastListener.screen st)) /\
    (Payload.id alert ∉ ToastListener.shownAlerts st').
Proof.
  intros Hlive Hout Hnone Hid Hclosed.
  eexists _, _. split; [apply (toast_receive_new alert st Hlive Hout)|].
  split; [apply (toast_receive_closed closing _ Hclosed)|]. simpl.
  rewrite Hid, Hnone. split; [reflexivity|]. split; [|split].
  - rewrite !on_screen_snoc. simpl. apply lookup_insert_eq.
  - apply lookup_insert_eq.
  - intros [_ Hx]%elem_of_difference. apply Hx. now apply elem_of_singleton.
Qed.

(** ** The listener of GlobalAlertListener.tsx, over any run *)

Lemma listener_handleAlert_cases (db : Store) (new : option Payload.t)
    (isUpdate : bool) (st : Listener.State) :
  Listener.handleAlert db new isUpdate st = st \/
  (exists alert,
     new = Some alert /\ isUpdate = true /\
     Listener.closed (Payload.status alert) = true /\
     Listener.handleAlert db new isUpdate st =
     {| Listener.shownAlerts := Listener.shownAlerts st ∖ {[Payload.id alert]};
        Listener.screen := Listener.screen st |}) \/
  (exists alert,
     new = Some alert /\ isUpdate = false /\
     (Payload.id alert ∉ Listener.shownAlerts st) /\
     Listener.handleAlert db new isUpdate st =
     Listener.notify alert (fetch_location db alert)
       {| Listener.shownAlerts := {[Payload.id alert]} ∪ Listener.shownAlerts st;
          Listener.screen := Listener.screen st |}).
Proof.
  destruct new as [alert|]; [|now left].
  unfold Listener.handleAlert, Listener.receive. destruct isUpdate.
  - destruct (Listener.closed (Payload.status alert)) eqn:Hc; [|now left].
    right. left. now exists alert.
  - destruct (decide (Payload.id alert ∈ Listener.shownAlerts st)) as [Hin|Hout].
    + left. now rewrite bool_decide_eq_true_2.
    + rewrite bool_decide_eq_false_2 by assumption.
      destruct (Listener.closed (Payload.status alert)); [now left|].
      right. right. now exists alert.
Qed.

(** X14. In GlobalAlertListener.tsx an alert gets at most one toast for
    as long as no solved/unsolved update for it comes in: after any run
    of the feed without such an update, the alert has one toast if its
    key is in the shown set and none otherwise. *)
Theorem listener_one_toast_per_alert (db : Store) (events : list Delivery)
    (k : string) :
  Forall (fun e => forall alert,
            delivered e = Some alert -> as_update e = true ->
            Listener.closed (Payload.status alert) = true ->
            Payload.id alert <> k) events ->
  let st := listener_run db events Sample.quiet in
  (k ∈ Listener.shownAlerts st -> shows k (effects (Listener.screen st)) = 1%nat) /\
  (k ∉ Listener.shownAlerts st -> shows k (effects (Listener.screen st)) = 0%nat).
Proof.
  intros Hev.
  assert (H : forall st,
            ((k ∈ Listener.shownAlerts st ->
              shows k (effects (Listener.screen st)) = 1%nat) /\
             (k ∉ Listener.shownAlerts st ->
              shows k (effects (Listener.screen st)) = 0%nat)) ->
            let st' := listener_run db events st in
            (k ∈ Listener.shownAlerts st' ->
             shows k (effects (Listener.screen st')) = 1%nat) /\
            (k ∉ Listener.shownAlerts st' ->
             shows k (effects (Listener.screen st')) = 0%nat)).
  { induction Hev as [|e events He _ IH]; intros st Hst; [exact Hst|].
    simpl. apply IH. destruct Hst as [Hin Hout].
    destruct (listener_handleAlert_cases db (delivered e) (as_update e) st)
      as [->|[(alert & Hd & Hu & Hc & ->)|(alert & Hd & Hu & Hnew & ->)]];
      [now split| |]; simpl.
    - specialize (He alert Hd Hu Hc). split.
      + intros [Hk _]%elem_of_difference. auto.
      + intros Hk. apply Hout. intros Hk'. apply Hk.
        apply elem_of_difference. split; [exact Hk'|].
        rewrite elem_of_singleton. congruence.
    - rewrite !shows_app. unfold shows at 2 3 5 6. simpl.
      destruct (String.eqb_spec (Payload.id alert) k) as [Heq|Hne]; simpl.
      + subst k. split; [|intros Hk; exfalso; apply Hk, elem_of_union; left;
                           now apply elem_of_singleton].
        intros _. rewrite (Hout Hnew). reflexivity.
      + split.
        * intros [Hk|Hk]%elem_of_union;
            [apply elem_of_singleton in Hk; congruence|].
          rewrite (Hin Hk). reflexivity.
        * intros Hk. rewrite Hout; [reflexivity|].
          intros Hk'. apply Hk, elem_of_union. now right. }
  apply H. split; [intros Hk; now apply not_elem_of_empty in Hk | reflexivity].
Qed.

(** X15. Both listeners ask for the sound once for every toast they put
    up, whatever the run. *)
Theorem sound_per_toast (db : Store) :
  (forall (events : list Delivery) (st : Listener.State),
     sounds (effects (Listener.screen st)) = toasts (effects (Listener.screen st)) ->
     sounds (effects (Listener.screen (listener_run db events st))) =
     toasts (effects (Listener.screen (listener_run db events st)))) /\
  (forall (events : list (option Payload.t)) (st : ToastListener.State),
     sounds (effects (ToastListener.screen st)) =
     toasts (effects (ToastListener.screen st)) ->
     sounds (effects (ToastListener.screen (toast_listener_run db events st))) =
     toasts (effects (ToastListener.screen (toast_listener_run db events st)))).
Proof.
  split.
  - induction events as [|e events IH]; intros st Hst; [exact Hst|].
    simpl. apply IH.
    destruct (listener_handleAlert_cases db (delivered e) (as_update e) st)
      as [->|[(alert & _ & _ & _ & ->)|(alert & _ & _ & _ & ->)]];
      [exact Hst | exact Hst |].
    simpl. rewrite !sounds_app, !toasts_app, Hst.
    unfold sounds, toasts. simpl. lia.
  - induction events as [|e events IH]; intros st Hst; [exact Hst|].
    simpl. apply IH.
    destruct (toast_handleAlert_cases db e st)
      as [->|[(alert & _ & _ & ->)|(alert & _ & _ & ->)]]; [exact Hst| |].
    + simpl. destruct (ToastListener.alertToasts st !! Payload.id alert);
        [|exact Hst].
      simpl. rewrite sounds_app, toasts_app, Hst.
      unfold sounds, toasts. simpl. lia.
    + simpl. rewrite !sounds_app, !toasts_app, Hst.
      unfold sounds, toasts. simpl. lia.
Qed.

(** ** The listener keyed by location *)

Lemma customs_app (id : string) (l l' : list Sonner.Effect) :
  customs id (l ++ l') = (customs id l + customs id l')%nat.
Proof. unfold customs. now rewrite List.filter_app, List.length_app. Qed.

Lemma location_live_not_closed (status : string) :
  LocationListener.live status = true -> LocationListener.closed status = false.
Proof.
  unfold LocationListener.live, LocationListener.closed.
  intros [H|H]%orb_true_iff; apply String.eqb_eq in H; now rewrite H.
Qed.

(** A live alert at a location without a toast gets one. *)
Lemma location_show_new (db : Store) (alert : Payload.t)
    (st : LocationListener.State) :
  LocationListener.live (default "active" (Payload.status alert)) = true ->
  Payload.location_id alert ∉ LocationListener.shownLocations st ->
  LocationListener.showAlertToast db (Some alert) st =
  {| LocationListener.shownLocations :=
       {[Payload.location_id alert]} ∪ LocationListener.shownLocations st;
     LocationListener.screen :=
       LocationListener.screen st ++
       [Sonner.Custom (Payload.location_id alert) (Payload.id alert)
          (locationName (fetch_location db alert))
          (LocationListener.typeDisplay (Payload.alert_type alert));
        Sonner.Sound] |}.
Proof.
  intros Hlive Hout.
  unfold LocationListener.showAlertToast, LocationListener.receive.
  rewrite (location_live_not_closed _ Hlive), Hlive. simpl.
  now rewrite bool_decide_eq_false_2.
Qed.

(** X16. Keyed by location, the listener lets one alert speak for the
    whole location: while the toast of a location is up, another alert
    there is not announced, and a closing event for any alert of the
    location takes the toast down and frees the key -- also when the alert
    the toast was shown for is a different one and still open. *)
Theorem location_listener_shares_toast (db : Store)
    (st : LocationListener.State) (first other : Payload.t) :
  Payload.location_id other = Payload.location_id first ->
  LocationListener.live (default "active" (Payload.status first)) = true ->
  Payload.location_id first ∉ LocationListener.shownLocations st ->
  let shown := LocationListener.handleAlert db (Some first) st in
  (LocationListener.closed (default "active" (Payload.status other)) = false ->
   LocationListener.handleAlert db (Some other) shown = shown) /\
  (LocationListener.closed (default "active" (Payload.status other)) = true ->
   let st' := LocationListener.handleAlert db (Some other) shown in
   LocationListener.screen st' =
     (LocationListener.screen st ++
      [Sonner.Custom (Payload.location_id first) (Payload.id first)
         (locationName (fetch_location db first))
         (LocationListener.typeDisplay (Payload.alert_type first));
       Sonner.Sound;
       Sonner.DismissId (Payload.location_id first)])%list /\
   (Payload.location_id first ∉ LocationListener.shownLocations st')).
Proof.
  intros Hloc Hlive Hout shown. subst shown.
  unfold LocationListener.handleAlert.
  rewrite (location_show_new db first st Hlive Hout). split.
  - intros Hopen.
    unfold LocationListener.showAlertToast, LocationListener.receive.
    rewrite Hopen, Hloc. simpl.
    destruct (negb _); [reflexivity|].
    rewrite bool_decide_eq_true_2; [reflexivity|].
    apply elem_of_union. left. now apply elem_of_singleton.
  - intros Hclosed.
    unfold LocationListener.showAlertToast, LocationListener.receive.
    rewrite Hclosed, Hloc. simpl. split.
    + now rewrite <- app_assoc.
    + intros [_ Hx]%elem_of_difference. apply Hx. now apply elem_of_singleton.
Qed.

Lemma in_app_or_cons2 {A} (x a b : A) (l : list A) :
  In x ([a; b] ++ l) -> a = x \/ b = x \/ In x l.
Proof. simpl. tauto. Qed.

(** The loop of [fetchExistingAlerts], from any [seenLocations]. *)
Lemma visit_all (db : Store) (l : list Payload.t) :
  forall (seen : gset string) (st : LocationListener.State),
    (forall p, In p l ->
       LocationListener.live (default "active" (Payload.status p)) = true) ->
    (forall p, In p l -> Payload.location_id p ∉ seen ->
       Payload.location_id p ∉ LocationListener.shownLocations st) ->
    exists new,
      LocationListener.screen (snd (fold_left (LocationListener.visit db) l (seen, st)))
      = (LocationListener.screen st ++ new)%list /\
      (forall loc, In loc (map Payload.location_id l) -> loc ∉ seen ->
                   customs loc new = 1%nat) /\
      (forall loc, ~ In loc (map Payload.location_id l) \/ loc ∈ seen ->
                   customs loc new = 0%nat) /\
      (forall loc a n t, In (Sonner.Custom loc a n t) new ->
         (loc ∉ seen) /\
         exists p,
           List.find (fun p => String.eqb (Payload.location_id p) loc) l = Some p /\
           Payload.id p = a) /\
      (forall e, In e new -> forall i, e <> Sonner.DismissId i).
Proof.
  induction l as [|p l IH]; intros seen st Hlive Hfree.
  - exists []. simpl. rewrite app_nil_r. split; [reflexivity|].
    split; [intros loc []|]. split; [reflexivity|]. split; intros; contradiction.
  - simpl.
    destruct (decide (Payload.location_id p ∈ seen)) as [Hseen|Hnew].
    + rewrite bool_decide_eq_true_2 by assumption.
      destruct (IH seen st) as (new & Hscr & Hone & Hzero & Hfirst & Hnod).
      { intros q Hq. apply Hlive. now right. }
      { intros q Hq. apply Hfree. now right. }
      exists new. split; [exact Hscr|]. split; [|split; [|split]].
      * intros loc [<-|Hin] Hloc; [contradiction|]. now apply Hone.
      * intros loc [Hnot|Hloc]; apply Hzero; [left|now right].
        intros Hin. apply Hnot. now right.
      * intros loc a n t Hin. destruct (Hfirst loc a n t Hin) as (Hloc & q & Hq & Ha).
        split; [exact Hloc|]. exists q. split; [|exact Ha].
        destruct (String.eqb_spec (Payload.location_id p) loc) as [Heq|Hne];
          [congruence | exact Hq].
      * exact Hnod.
    + rewrite bool_decide_eq_false_2 by assumption.
      rewrite (location_show_new db p st);
        [|apply Hlive; now left|apply Hfree; [now left | exact Hnew]].
      match goal with
      | |- context [fold_left _ l (?s, ?t)] =>
          destruct (IH s t) as (new & Hscr & Hone & Hzero & Hfirst & Hnod)
      end.
      { intros q Hq. apply Hlive. now right. }
      { intros q Hq Hq'. simpl. intros [Hx|Hx]%elem_of_union.
        - apply Hq', elem_of_union. now left.
        - revert Hx. apply Hfree; [now right|].
          intros Hs. apply Hq', elem_of_union. now right. }
      simpl in Hscr. rewrite <- app_assoc in Hscr.
      eexists. split; [exact Hscr|]. split; [|split; [|split]].
      * intros loc Hin Hloc. rewrite customs_app. unfold customs at 1. simpl.
        destruct (String.eqb_spec (Payload.location_id p) loc) as [Heq|Hne]; simpl.
        -- rewrite Hzero; [reflexivity|]. right. apply elem_of_union. left.
           apply elem_of_singleton. congruence.
        -- rewrite Hone; [reflexivity| |].
           ++ destruct Hin as [Hin|Hin]; [congruence | exact Hin].
           ++ intros [Hx|Hx]%elem_of_union; [|contradiction].
              apply elem_of_singleton in Hx. congruence.
      * intros loc Hloc. rewrite customs_app. unfold customs at 1. simpl.
        destruct (String.eqb_spec (Payload.location_id p) loc) as [Heq|Hne]; simpl.
        -- destruct Hloc as [Hnot|Hloc]; [exfalso; apply Hnot; now left|].
           congruence.
        -- rewrite Hzero; [reflexivity|].
           destruct Hloc as [Hnot|Hloc].
           ++ left. intros Hin. apply Hnot. now right.
           ++ right. apply elem_of_union. now right.
      * intros loc a n t [Hin|[Hin|Hin]]%in_app_or_cons2.
        -- injection Hin as <- <- _ _. split; [exact Hnew|].
           exists p. now rewrite String.eqb_refl.
        -- discriminate.
        -- destruct (Hfirst loc a n t Hin) as (Hloc & q & Hq & Ha).
           split; [intros Hs; apply Hloc, elem_of_union; now right|].
           exists q. split; [|exact Ha].
           destruct (String.eqb_spec (Payload.location_id p) loc) as [Heq|Hne];
             [|exact Hq].
           exfalso. apply Hloc, elem_of_union. left.
           apply elem_of_singleton. congruence.
      * intros e [Hin|[Hin|Hin]]%in_app_or_cons2 i;
          [subst e; discriminate | subst e; discriminate | now apply Hnod].
Qed.

(** X17. When the listener mounts, the open alerts it fetches (newest
    first) give one toast per location, for the first -- the newest --
    alert of that location in the list, and nothing is dismissed; a query
    that comes back with [null] or with no rows gives no toast. *)
Theorem fetchExistingAlerts_one_per_location (db : Store)
    (alerts : list Payload.t) (st : LocationListener.State) :
  (forall p, In p alerts ->
     LocationListener.live (default "active" (Payload.status p)) = true) ->
  (forall p, In p alerts ->
     Payload.location_id p ∉ LocationListener.shownLocations st) ->
  LocationListener.fetchExistingAlerts db None st = st /\
  exists new,
    LocationListener.screen (LocationListener.fetchExistingAlerts db (Some alerts) st)
    = (LocationListener.screen st ++ new)%list /\
    (forall loc, In loc (map Payload.location_id alerts) -> customs loc new = 1%nat) /\
    (forall loc, ~ In loc (map Payload.location_id alerts) -> customs loc new = 0%nat) /\
    (forall loc a n t, In (Sonner.Custom loc a n t) new ->
       exists p,
         List.find (fun p => String.eqb (Payload.location_id p) loc) alerts = Some p /\
         Payload.id p = a) /\
    (forall e, In e new -> forall i, e <> Sonner.DismissId i).
Proof.
  intros Hlive Hfree. split; [reflexivity|].
  destruct alerts as [|p rest].
  - exists []. simpl. rewrite app_nil_r. split; [reflexivity|].
    split; [intros loc []|]. split; [reflexivity|]. split; intros; contradiction.
  - destruct (visit_all db (p :: rest) ∅ st Hlive) as (new & Hscr & Hone & Hzero & Hfirst & Hnod).
    { intros q Hq _. now apply Hfree. }
    exists new. split; [exact Hscr|]. split; [|split; [|split]].
    + intros loc Hin. apply Hone; [exact Hin | apply not_elem_of_empty].
    + intros loc Hnot. apply Hzero. now left.
    + intros loc a n t Hin. now destruct (Hfirst loc a n t Hin) as (_ & Hp).
    + exact Hnod.
Qed.

(** ** The first listener *)

Lemma first_listener_grows (db : Store) (new : option Payload.t) (isUpdate : bool)
    (st : FirstListener.State) :
  FirstListener.shownAlerts st ⊆
  FirstListener.shownAlerts (FirstListener.handleAlert db new isUpdate st).
Proof.
  unfold FirstListener.handleAlert, FirstListener.receive.
  destruct new as [alert|]; [|reflexivity].
  destruct (negb isUpdate && _); [reflexivity|].
  unfold FirstListener.notify. simpl. destruct isUpdate; simpl;
    intros x Hx; apply elem_of_union; now right.
Qed.

(** X18. The first listener never forgets a location: once any event of
    a location has been handled, no later INSERT event there is announced
    -- not after any number of further events, and whatever became of the
    earlier alert. *)
Theorem first_listener_location_announced_once (db : Store)
    (events : list Delivery) (st : FirstListener.State) (alert : Payload.t) :
  Payload.location_id alert ∈ FirstListener.shownAlerts st ->
  let st' := first_listener_run db events st in
  (Payload.location_id alert ∈ FirstListener.shownAlerts st') /\
  FirstListener.handleAlert db (Some alert) false st' = st'.
Proof.
  intros Hin st'.
  assert (Hin' : Payload.location_id alert ∈ FirstListener.shownAlerts st').
  { subst st'. revert st Hin. induction events as [|e events IH]; intros st Hin;
      [exact Hin|].
    simpl. apply IH. now apply first_listener_grows. }
  split; [exact Hin'|].
  unfold FirstListener.handleAlert, FirstListener.receive. simpl.
  now rewrite bool_decide_eq_true_2.
Qed.

(** ** The pages *)

Lemma filter_split_length {A} (f : A -> bool) (l : list A) :
  (length (List.filter f l) + length (List.filter (fun x => negb (f x)) l))%nat
  = length l.
Proof.
  induction l as [|x l IH]; [reflexivity|].
  simpl. destruct (f x); simpl; lia.
Qed.

(** X19. The tabs of the alerts page: every alert is either under Live or
    under Past, never both; Unsolved repeats Live and Solved is part of
    Past; an alert that is in_queue or a false alarm is listed under Past
    only, and has no buttons. *)
Theorem alerts_page_tabs (data : list Alert) :
  let tabs := AlertsPage.fetchAlerts (Some data) in
  (forall a, In a data ->
     (In a (AlertsPage.liveAlerts tabs) /\ ~ In a (AlertsPage.pastAlerts tabs)) \/
     (~ In a (AlertsPage.liveAlerts tabs) /\ In a (AlertsPage.pastAlerts tabs))) /\
  (length (AlertsPage.liveAlerts tabs) + length (AlertsPage.pastAlerts tabs))%nat
    = length data /\
  AlertsPage.unsolvedCases tabs = AlertsPage.liveAlerts tabs /\
  (forall a, In a (AlertsPage.solvedCases tabs) -> In a (AlertsPage.pastAlerts tabs)) /\
  (forall a, In a data ->
     status (row a) = "in_queue" \/ status (row a) = "false_alarm" ->
     In a (AlertsPage.pastAlerts tabs) /\
     ~ In a (AlertsPage.liveAlerts tabs) /\
     ~ In a (AlertsPage.solvedCases tabs) /\
     ~ In a (AlertsPage.unsolvedCases tabs) /\
     AlertsPage.has_buttons a = false).
Proof.
  simpl. split; [|split; [|split; [|split]]].
  - intros a Ha. rewrite !filter_In.
    destruct (AlertsPage.has_status "active" a) eqn:Hs; simpl.
    + left. split; [now split|]. intros [_ H]. discriminate.
    + right. split; [intros [_ H]; discriminate | now split].
  - apply filter_split_length.
  - reflexivity.
  - intros a. rewrite !filter_In. intros [Ha Hs]. split; [exact Ha|].
    unfold AlertsPage.has_status in *. apply String.eqb_eq in Hs. now rewrite Hs.
  - intros a Ha Hst. rewrite !filter_In. unfold AlertsPage.has_buttons.
    assert (Hact : AlertsPage.has_status "active" a = false)
      by (unfold AlertsPage.has_status; destruct Hst as [-> | ->]; reflexivity).
    assert (Hres : AlertsPage.has_status "resolved" a = false)
      by (unfold AlertsPage.has_status; destruct Hst as [-> | ->]; reflexivity).
    rewrite Hact, Hres. simpl. repeat split; try tauto; intros [_ H]; discriminate.
Qed.

Section PageFacts.

Context (StringToNumber : string -> JS.number).

Local Abbreviation classify := (AlertManager.classify StringToNumber).

Lemma classify_types (sensors : Sensors) (ty sev : string) :
  classify sensors = Some (ty, sev) ->
  (ty = "fire" /\ flame sensors = JS.Str "FLAME") \/
  ((ty = "gas_leak" \/ ty = "temperature") /\ flame sensors <> JS.Str "FLAME").
Proof.
  rewrite classify_cases.
  destruct (JS.strict_eq_str (flame sensors) "FLAME") eqn:Hf.
  - apply strict_eq_str_spec in Hf. intros [= <- _]. now left.
  - apply strict_eq_str_false in Hf.
    destruct (JS.gt_literal _ (gas sensors) 400); [intros [= <- _]; right; auto|].
    destruct (JS.gt_literal _ (temperature sensors) 35);
      [intros [= <- _]; right; auto | discriminate].
Qed.

(** X20. On the alerts page only a fire alert gets an icon of its own:
    the other two types the evaluator stores, gas_leak and temperature,
    are not among the names the page knows (gas, temp, motion) and get the
    general warning icon. *)
Theorem alerts_page_icons (sensors : Sensors) (ty sev : string) :
  classify sensors = Some (ty, sev) ->
  (ty = "fire" /\ AlertsPage.getAlertIcon ty = AlertsPage.Flame) \/
  ((ty = "gas_leak" \/ ty = "temperature") /\
   AlertsPage.getAlertIcon ty = AlertsPage.AlertTriangle).
Proof.
  intros Hc. destruct (classify_types sensors ty sev Hc) as [[-> _]|[[-> | ->] _]].
  - now left.
  - right. split; [now left | reflexivity].
  - right. split; [now right | reflexivity].
Qed.

(** X21. The flame line of an alert on the alerts page reads "Detected"
    for any flame value that counts as true, so also for the string "NO
    FLAME" of a sensor that sees no flame: an alert stored for a gas leak
    or a high temperature with such a reading is shown with "Flame:
    Detected". *)
Theorem alerts_page_flame_line (sensors : Sensors) (ty sev : string) (a : Alert)
    (s : string) :
  classify sensors = Some (ty, sev) ->
  sensor_values (row a) = sensors ->
  flame sensors = JS.Str s -> s <> "" -> s <> "FLAME" ->
  ty <> "fire" /\ AlertsPage.flameLine a = "Detected".
Proof.
  intros Hc Hv Hf Hne Hnf. split.
  - destruct (classify_types sensors ty sev Hc) as [[_ Hfl]|[[-> | ->] _]];
      [congruence | discriminate | discriminate].
  - unfold AlertsPage.flameLine. rewrite Hv, Hf. simpl.
    apply String.eqb_neq in Hne. now rewrite Hne.
Qed.

Lemma or_zero_FLAME (v : JS.value) :
  JS.strict_eq_str (StatusPage.or_zero v) "FLAME" = JS.strict_eq_str v "FLAME".
Proof.
  unfold StatusPage.or_zero. destruct (truthy_value v) eqn:Ht; [reflexivity|].
  destruct v as [| |b|n|s]; try reflexivity. simpl in *.
  apply negb_false_iff, String.eqb_eq in Ht. now subst s.
Qed.

(** X22. The status page and the evaluator agree on flames: the page's
    flame line reads "Detected" exactly for the readings the evaluator
    classifies as fire. *)
Theorem status_page_flame_agrees (sensors : Sensors) :
  StatusPage.flameLine (StatusPage.shown_data sensors) = "Detected" <->
  classify sensors = Some ("fire", "critical").
Proof.
  unfold StatusPage.flameLine, StatusPage.shown_data. simpl.
  rewrite or_zero_FLAME, classify_cases.
  destruct (JS.strict_eq_str (flame sensors) "FLAME"); [tauto|].
  split; [discriminate|].
  destruct (JS.gt_literal _ (gas sensors) 400); [discriminate|].
  destruct (JS.gt_literal _ (temperature sensors) 35); discriminate.
Qed.

(** X23. The status page announces an evaluation exactly when it added a
    record: then there is one more alert in the table and one more toast,
    "<TYPE> detected - critical severity"; in every other case -- a
    re-detection that rewrote a record, nominal readings, no telemetry, an
    error -- the table keeps its size and the page shows nothing. *)
Theorem status_page_toast_iff_created (env : Env) (locationId' : string)
    (st : Store) (page : list StatusPage.PageToast) :
  let st' := fst (StatusPage.evaluateAlerts StringToNumber env locationId' st page) in
  let page' := snd (StatusPage.evaluateAlerts StringToNumber env locationId' st page) in
  (size (alerts st') = S (size (alerts st)) /\
   exists ty,
     (ty = "fire" \/ ty = "gas_leak" \/ ty = "temperature") /\
     page' = (page ++
              [{| StatusPage.title := "🚨 Alert Created!";
                  StatusPage.description :=
                    toUpperCase ty ++ " detected - critical severity";
                  StatusPage.variant := "destructive" |}])%list) \/
  (size (alerts st') = size (alerts st) /\ page' = page).
Proof.
  unfold StatusPage.evaluateAlerts, AlertManager.serve. simpl.
  destruct (evaluate_cases StringToNumber env locationId' st)
    as [[m ->]|[->|(location & sensors & _ & _ & _ & ->)]];
    [right; now split | right; now split |].
  destruct (create_or_update_cases StringToNumber env locationId' sensors st)
    as [[m ->]|[[_ ->]|[(ty & sev & key & old & _ & Hold & _ & _ & ->)
                       |(ty & sev & Hc & Hfresh & ->)]]];
    [right; now split | right; now split | |]; simpl.
  - right. split; [|reflexivity]. apply map_size_insert_Some. now exists old.
  - left. split; [now apply map_size_insert_None|].
    exists ty. pose proof (classify_critical _ _ _ _ Hc) as ->.
    split; [|reflexivity].
    destruct (classify_types sensors ty "critical" Hc) as [[-> _]|[[-> | ->] _]]; auto.
Qed.

End PageFacts.

(** ** The further properties on the sample data *)

Lemma serve_failure_keeps_store_witness :
  snd (AlertManager.serve Sample.StringToNumber (Sample.env Sample.unreachable)
         Sample.evaluate_L Scenario.nowhere) = Scenario.nowhere.
Proof.
  apply (proj2 (proj2 (serve_failure_keeps_store Sample.StringToNumber
                         (Sample.env Sample.unreachable) Sample.evaluate_L
                         Scenario.nowhere))).
  reflexivity.
Defined.

Lemma update_requires_identity_witness :
  AlertManager.serve Sample.StringToNumber (Sample.env Sample.unreachable)
    Scenario.anonymous Scenario.nowhere
  = ({| http_status := 400; body := Failed "No authorization header" |},
     Scenario.nowhere) /\
  AlertManager.serve Sample.StringToNumber (Sample.env Sample.unreachable)
    Scenario.stranger Scenario.nowhere
  = ({| http_status := 400; body := Failed "Unauthorized" |}, Scenario.nowhere).
Proof.
  split.
  - apply (update_requires_identity Sample.StringToNumber
             (Sample.env Sample.unreachable) Scenario.anonymous Scenario.nowhere).
    + discriminate.
    + reflexivity.
    + now left.
  - apply (proj2 (update_requires_identity Sample.StringToNumber
                    (Sample.env Sample.unreachable) Scenario.stranger
                    Scenario.nowhere ltac:(discriminate) eq_refl)
             "Bearer nobody").
    + reflexivity.
    + discriminate.
    + reflexivity.
Defined.

Lemma update_unknown_alert_witness :
  AlertManager.serve Sample.StringToNumber (Sample.env Sample.unreachable)
    (Sample.set_status "zz" "resolved")
    (Sample.store {[ "a1" := Sample.raised 10 "active" ]})
  = (ok (Message "Alert updated successfully" None),
     Sample.store {[ "a1" := Sample.raised 10 "active" ]}).
Proof.
  apply (update_unknown_alert Sample.StringToNumber (Sample.env Sample.unreachable)
           (Sample.set_status "zz" "resolved")
           (Sample.store {[ "a1" := Sample.raised 10 "active" ]}) "u1").
  - split; [discriminate|]. split; [reflexivity|].
    exists "Bearer token". split; [reflexivity|]. split; [discriminate|reflexivity].
  - reflexivity.
Defined.

Lemma evaluate_nominal_witness :
  AlertManager.serve Sample.StringToNumber (Sample.env (Sample.answers Sample.nominal))
    Sample.evaluate_L (Sample.store {[ "a1" := Sample.raised 10 "active" ]})
  = (ok (Message "All sensors within normal range" (Some Sample.nominal)),
     Sample.store {[ "a1" := Sample.raised 10 "active" ]}).
Proof.
  apply (evaluate_nominal Sample.StringToNumber
           (Sample.env (Sample.answers Sample.nominal)) Sample.evaluate_L
           (Sample.store {[ "a1" := Sample.raised 10 "active" ]}) Sample.lab).
  - split; [discriminate | reflexivity].
  - reflexivity.
  - split; [reflexivity|]. eexists. repeat split.
  - reflexivity.
Defined.

Lemma evaluate_again_updates_witness :
  let st1 := snd (AlertManager.serve Sample.StringToNumber
                    (Sample.env (Sample.answers Sample.burning)) Sample.evaluate_L
                    (Sample.store ∅)) in
  exists b,
    fst (AlertManager.serve Sample.StringToNumber later_env Sample.evaluate_L st1)
    = ok (AlertUpdated b) /\
    alert_type (row b) = "gas_leak" /\
    size (alerts (snd (AlertManager.serve Sample.StringToNumber later_env
                         Sample.evaluate_L st1))) = 1%nat.
Proof.
  intros st1.
  destruct (evaluate_again_updates Sample.StringToNumber
              (Sample.env (Sample.answers Sample.burning)) later_env
              Sample.evaluate_L (Sample.store ∅) Scenario.created Sample.lab
              Sample.leaking "gas_leak" "critical")
    as (b & Hb & _ & _ & _ & _ & Hsize & _).
  - split; [discriminate | reflexivity].
  - left. reflexivity.
  - reflexivity.
  - split; [reflexivity|]. eexists. repeat split.
  - reflexivity.
  - vm_compute. discriminate.
  - exists b. split; [exact Hb|]. split.
    + fold st1 in Hb. revert Hb. vm_compute. now intros [= <-].
    + etrans; [exact Hsize|]. reflexivity.
Defined.

Lemma bearer_token_attributes_update_witness :
  exists new,
    alerts (snd (AlertManager.serve Sample.StringToNumber
                   (Sample.env Sample.unreachable)
                   (Sample.set_status "a1" "false_alarm")
                   (Sample.store {[ "a1" := Sample.raised 10 "active" ]}))) !! "a1"
    = Some new /\
    status new = "false_alarm" /\ resolved_by new = Some "u1".
Proof.
  destruct (bearer_token_attributes_update Sample.StringToNumber
              (Sample.env Sample.unreachable) (Sample.set_status "a1" "false_alarm")
              (Sample.store {[ "a1" := Sample.raised 10 "active" ]})
              "token" "u1" (Sample.raised 10 "active"))
    as (new & _ & Hnew & Hst & Hby & _).
  - discriminate.
  - reflexivity.
  - reflexivity.
  - reflexivity.
  - reflexivity.
  - discriminate.
  - exists new. now repeat split.
Defined.

Lemma classify_ignores_motion_witness :
  AlertManager.classify Sample.StringToNumber Scenario.moving =
  AlertManager.classify Sample.StringToNumber Sample.burning.
Proof.
  apply (classify_ignores_motion Sample.StringToNumber Scenario.moving Sample.burning);
    reflexivity.
Defined.

Lemma missing_fields_do_not_trigger_witness :
  AlertManager.classify Sample.StringToNumber Scenario.partial = None.
Proof.
  apply (missing_fields_do_not_trigger Sample.StringToNumber Scenario.partial).
  intros v [-> | ->]; [now left | right; now left].
Defined.

Lemma toast_listener_closed_clears_screen_witness :
  let st := toast_listener_run (Sample.store ∅)
              ([Some (Sample.event "active")] ++ [Some (Sample.event "resolved")])
              Sample.idle in
  on_screen (effects (ToastListener.screen st)) !! 0%nat <> Some "a1" /\
  ("a1" ∉ ToastListener.shownAlerts st).
Proof.
  intros st.
  destruct (toast_listener_closed_clears_screen (Sample.store ∅)
              [Some (Sample.event "active")] (Sample.event "resolved") eq_refl)
    as [Hscr Hout].
  split; [apply Hscr | exact Hout].
Defined.

Lemma toast_listener_closed_while_waiting_witness :
  exists waiting closed_,
    ToastListener.receive (Some (Sample.event "active")) Sample.idle
    = (waiting, Some (Sample.event "active")) /\
    ToastListener.receive (Some (Sample.event "resolved")) waiting = (closed_, None) /\
    ToastListener.alertToasts
      (ToastListener.notify (Sample.event "active") None closed_) !! "a1"
    = Some 0%nat.
Proof.
  destruct (toast_listener_closed_while_waiting (Sample.store ∅) Sample.idle
              (Sample.event "active") (Sample.event "resolved"))
    as (waiting & closed_ & H1 & H2 & _ & _ & H3 & _).
  - reflexivity.
  - apply not_elem_of_empty.
  - reflexivity.
  - reflexivity.
  - reflexivity.
  - exists waiting, closed_. split; [exact H1|]. split; [exact H2 | exact H3].
Defined.

Lemma listener_one_toast_per_alert_witness :
  shows "a1"
    (effects (Listener.screen
                (listener_run (Sample.store ∅)
                   [Scenario.insert_of (Sample.event "active");
                    Scenario.update_of (Sample.event "active");
                    Scenario.insert_of (Sample.event "active")]
                   Sample.quiet))) = 1%nat.
Proof.
  apply (listener_one_toast_per_alert (Sample.store ∅)
           [Scenario.insert_of (Sample.event "active");
            Scenario.update_of (Sample.event "active");
            Scenario.insert_of (Sample.event "active")] "a1").
  - repeat constructor; intros alert [= <-] _ Hc; discriminate.
  - apply (bool_decide_unpack _). vm_compute. exact I.
Defined.

Lemma sound_per_toast_witness :
  sounds (effects (Listener.screen
                     (listener_run (Sample.store ∅)
                        [Scenario.insert_of (Sample.event "active");
                         Scenario.insert_of (Scenario.second "active")]
                        Sample.quiet))) = 2%nat.
Proof.
  etrans.
  - apply (proj1 (sound_per_toast (Sample.store ∅))). reflexivity.
  - reflexivity.
Defined.

Lemma location_listener_shares_toast_witness :
  LocationListener.screen
    (LocationListener.handleAlert (Sample.store ∅) (Some (Scenario.second "resolved"))
       (LocationListener.handleAlert (Sample.store ∅) (Some (Sample.event "active"))
          Scenario.unmounted))
  = [Sonner.Custom "L" "a1" "Lab" "FIRE"; Sonner.Sound;
     Sonner.DismissId "L"].
Proof.
  destruct (location_listener_shares_toast (Sample.store ∅) Scenario.unmounted
              (Sample.event "active") (Scenario.second "resolved"))
    as [_ Hclosed].
  - reflexivity.
  - reflexivity.
  - apply not_elem_of_empty.
  - destruct (Hclosed eq_refl) as [Hscr _]. exact Hscr.
Defined.

Lemma fetchExistingAlerts_one_per_location_witness :
  exists new,
    LocationListener.screen
      (LocationListener.fetchExistingAlerts (Sample.store ∅)
         (Some [Scenario.second "active"; Sample.event "active"; Scenario.elsewhere])
         Scenario.unmounted) = new /\
    customs "L" new = 1%nat /\ customs "M" new = 1%nat.
Proof.
  destruct (fetchExistingAlerts_one_per_location (Sample.store ∅)
              [Scenario.second "active"; Sample.event "active"; Scenario.elsewhere]
              Scenario.unmounted)
    as (_ & new & Hscr & Hone & _).
  - intros p [<-|[<-|[<-|[]]]]; reflexivity.
  - intros p _. apply not_elem_of_empty.
  - exists new. split; [exact Hscr|]. split; apply Hone; simpl; auto.
Defined.

Lemma first_listener_location_announced_once_witness :
  let st := FirstListener.handleAlert (Sample.store ∅) (Some (Sample.event "active"))
              false Scenario.fresh in
  let st' := first_listener_run (Sample.store ∅)
               [Scenario.update_of (Sample.event "resolved")] st in
  FirstListener.handleAlert (Sample.store ∅) (Some (Scenario.second "active")) false st'
  = st'.
Proof.
  intros st st'.
  apply (first_listener_location_announced_once (Sample.store ∅)
           [Scenario.update_of (Sample.event "resolved")] st
           (Scenario.second "active")).
  apply (bool_decide_unpack _). vm_compute. exact I.
Defined.

Lemma alerts_page_icons_witness :
  AlertsPage.getAlertIcon "gas_leak" = AlertsPage.AlertTriangle.
Proof.
  destruct (alerts_page_icons Sample.StringToNumber Sample.leaking "gas_leak" "critical")
    as [[Hty _]|[_ Hicon]].
  - reflexivity.
  - discriminate.
  - exact Hicon.
Defined.

Lemma alerts_page_flame_line_witness :
  alert_type (row Scenario.leak_alert) = "gas_leak" /\
  AlertsPage.flameLine Scenario.leak_alert = "Detected".
Proof.
  split; [reflexivity|].
  apply (alerts_page_flame_line Sample.StringToNumber Sample.leaking
           "gas_leak" "critical" Scenario.leak_alert "NO FLAME").
  - reflexivity.
  - reflexivity.
  - reflexivity.
  - discriminate.
  - discriminate.
Defined.

(** ** The listener that refreshes its toasts *)

(** X24. In the refreshing listener an event that is not solved/unsolved,
    delivered twice for an alert without a toast, gives one toast, one
    sound and then one refresh of that toast -- whether the second call
    starts after the first has finished or while it still waits for the
    location name. *)
Theorem updating_listener_twice (db : Store) (st : UpdatingListener.State)
    (alert : Payload.t) :
  UpdatingListener.closed (Payload.status alert) = false ->
  UpdatingListener.alertToasts st !! Payload.id alert = None ->
  let location := fetch_location db alert in
  let st2 := UpdatingListener.handleAlert db (Some alert)
               (UpdatingListener.handleAlert db (Some alert) st) in
  UpdatingListener.calls st2 =
    (UpdatingListener.calls st ++
     [UpdatingListener.Show (UpdatingListener.issued st) (Payload.id alert)
        (title_of (Payload.alert_type alert))
        (description_of location (Payload.severity alert));
      UpdatingListener.Beep;
      UpdatingListener.Refresh (UpdatingListener.issued st)
        (title_of (Payload.alert_type alert))
        (description_of location (Payload.severity alert))])%list /\
  UpdatingListener.alertToasts st2 !! Payload.id alert
    = Some (UpdatingListener.issued st) /\
  exists first second,
    UpdatingListener.receive (Some alert) st = (first, Some alert) /\
    UpdatingListener.receive (Some alert) first = (second, Some alert) /\
    UpdatingListener.calls
      (UpdatingListener.resume alert location
         (UpdatingListener.resume alert location second))
    = UpdatingListener.calls st2.
Proof.
  intros Hopen Hnone location st2.
  assert (Hrecv : forall s,
            UpdatingListener.receive (Some alert) s =
            ({| UpdatingListener.shownAlerts :=
                  {[Payload.id alert]} ∪ UpdatingListener.shownAlerts s;
                UpdatingListener.alertToasts := UpdatingListener.alertToasts s;
                UpdatingListener.calls := UpdatingListener.calls s;
                UpdatingListener.issued := UpdatingListener.issued s |}, Some alert)).
  { intros s. unfold UpdatingListener.receive. now rewrite Hopen. }
  assert (H2 : UpdatingListener.calls st2 =
               (UpdatingListener.calls st ++
                [UpdatingListener.Show (UpdatingListener.issued st) (Payload.id alert)
                   (title_of (Payload.alert_type alert))
                   (description_of location (Payload.severity alert));
                 UpdatingListener.Beep;
                 UpdatingListener.Refresh (UpdatingListener.issued st)
                   (title_of (Payload.alert_type alert))
                   (description_of location (Payload.severity alert))])%list /\
               UpdatingListener.alertToasts st2 !! Payload.id alert
               = Some (UpdatingListener.issued st)).
  { subst st2. unfold UpdatingListener.handleAlert. rewrite !Hrecv.
    unfold UpdatingListener.resume. simpl. rewrite Hnone. simpl.
    rewrite lookup_insert_eq. simpl. rewrite <- app_assoc.
    split; [reflexivity | apply lookup_insert_eq]. }
  destruct H2 as [Hcalls Hhandle].
  split; [exact Hcalls|]. split; [exact Hhandle|].
  eexists _, _. split; [apply Hrecv|]. split; [apply Hrecv|].
  rewrite Hcalls. unfold UpdatingListener.resume. simpl. rewrite Hnone. simpl.
  rewrite lookup_insert_eq. simpl. now rewrite <- app_assoc.
Qed.

Lemma updating_listener_twice_witness :
  UpdatingListener.calls
    (UpdatingListener.handleAlert (Sample.store ∅) (Some (Sample.event "active"))
       (UpdatingListener.handleAlert (Sample.store ∅) (Some (Sample.event "active"))
          Scenario.starting))
  = [UpdatingListener.Show 0 "a1" (title_of "fire")
       (description_of (Some Sample.lab) "critical");
     UpdatingListener.Beep;
     UpdatingListener.Refresh 0 (title_of "fire")
       (description_of (Some Sample.lab) "critical")].
Proof.
  destruct (updating_listener_twice (Sample.store ∅) Scenario.starting
              (Sample.event "active")) as (Hcalls & _).
  - reflexivity.
  - reflexivity.
  - exact Hcalls.
Defined.
